(** * Temporal feature aggregation of the Real Madrid match analyzer

    Shallow embedding of the season registry ([season_manager.py]), the
    rolling-form calculator ([stats_calculator.py]), the season and tier
    calculator ([season_calculator.py]), the head-to-head calculator
    ([h2h_calculator.py]) and the opponent wrappers ([stats_functions.py]).

    Conventions of the embedding:
    - a pandas DataFrame is a list of rows, in index order;
    - a calendar date is an integer [ymd y m d]; the encoding preserves the
      order of dates, which is all the code uses; a missing date (NaT) is
      [None] and every comparison with it is false, as in pandas;
    - a numeric cell is [Some v] or [None] for NaN; a comparison with NaN
      is false and [Series.sum] skips NaN;
    - Python floats are idealised as rationals ([Q]);
    - a call either returns a Python value or raises. *)

From Stdlib Require Import ZArith QArith List String Bool Lia Lqa Permutation Sorted.
Import ListNotations.

Local Open Scope Z_scope.
Set Warnings "-register-all".

(** ** Python values and outcomes *)

Inductive pyval : Type :=
| PyNone
| PyBool (b : bool)
| PyInt (z : Z)
| PyFloat (q : Q)
| PyNaN
| PyDict (d : list (string * pyval)).

Inductive exn : Type :=
| TypeError
| KeyError.

Inductive outcome (A : Type) : Type :=
| Returned (a : A)
| Raised (e : exn).

Arguments Returned {A} a.
Arguments Raised {A} e.

(** [bool(v)] of Python: [np.nan] is a non-zero float, hence true. *)
Definition truthy (v : pyval) : bool :=
  match v with
  | PyNone => false
  | PyBool b => b
  | PyInt z => negb (z =? 0)
  | PyFloat q => negb (Qeq_bool q 0)
  | PyNaN => true
  | PyDict d => match d with [] => false | _ :: _ => true end
  end.

Fixpoint dict_get (d : list (string * pyval)) (k : string) : option pyval :=
  match d with
  | [] => None
  | (k', v) :: d' => if String.eqb k' k then Some v else dict_get d' k
  end.

(** [v[k]]: only a dict can be subscripted by a string key. *)
Definition subscript (v : pyval) (k : string) : outcome pyval :=
  match v with
  | PyDict d =>
      match dict_get d k with
      | Some x => Returned x
      | None => Raised KeyError
      end
  | _ => Raised TypeError
  end.

(** The values the calculators use to say "no result". *)
Definition is_absence (v : pyval) : bool :=
  match v with
  | PyNone | PyNaN | PyBool false => true
  | _ => false
  end.

Definition is_dict (v : pyval) : bool :=
  match v with PyDict _ => true | _ => false end.

(** ** Dates *)

Definition ymd (y m d : Z) : Z := y * 10000 + m * 100 + d.

(** ** Seasons ([const_variable.py], [season_manager.py]) *)

Record Season : Type := mkSeason {
  name : string;
  start_date : Z;
  end_date : Z
}.

Definition SEASON_DATES : list (Z * Z) :=
  [ (ymd 2019 8 16, ymd 2020 7 19);
    (ymd 2020 9 12, ymd 2021 5 23);
    (ymd 2021 8 13, ymd 2022 5 22);
    (ymd 2022 8 12, ymd 2023 6 4);
    (ymd 2023 8 11, ymd 2024 5 26);
    (ymd 2024 8 16, ymd 2025 3 16) ].

Definition season_names : list string :=
  [ "2019-2020"; "2020-2021"; "2021-2022";
    "2022-2023"; "2023-2024"; "2024-2025" ]%string.

(** [SeasonManager.__init__]: the list [self.seasons]. *)
Definition SeasonManager_seasons : list Season :=
  map (fun p => mkSeason (fst p) (fst (snd p)) (snd (snd p)))
      (combine season_names SEASON_DATES).

(** What [get_previous_season] can return: [None], the first-season
    sentinel [True], or a season dict. *)
Inductive prev_season : Type :=
| PrevNone
| PrevTrue
| PrevDict (s : Season).

Module SeasonManager.

(** [get_season]: the first season whose closed range holds the date. *)
Definition get_season (seasons : list Season) (match_date : Z) : option Season :=
  find (fun s => (start_date s <=? match_date) && (match_date <=? end_date s)) seasons.

(** [next(i for i, s in enumerate(seasons) if s["name"] == nm)];
    [None] stands for [StopIteration]. *)
Fixpoint index_of_name (seasons : list Season) (nm : string) : option nat :=
  match seasons with
  | [] => None
  | s :: rest =>
      if String.eqb (name s) nm then Some O
      else option_map S (index_of_name rest nm)
  end.

Definition get_previous_season (seasons : list Season) (season : option Season)
  : prev_season :=
  match season with
  | None => PrevNone
  | Some cur =>
      match index_of_name seasons (name cur) with
      | None => PrevNone
      | Some O => PrevTrue
      | Some (S i) =>
          match nth_error seasons i with
          | Some p => PrevDict p
          | None => PrevNone
          end
      end
  end.

End SeasonManager.

(** ** Match tables *)

(** One row of [all_matches.csv] or of the Real Madrid match table.  The
    columns [goals] (goals of Real Madrid) and [real_result] (1, 0.5 or 0)
    exist in the Real Madrid table only.  [other_checked_nan] says that one
    of the remaining columns inspected by [check_NaN_column_in_RM_matches]
    (team names, points, coach, team and rival ratings) is NaN in the row. *)
Record Match : Type := mkMatch {
  match_date : option Z;
  home_team_id : Z;
  away_team_id : Z;
  home_goals : option Z;
  away_goals : option Z;
  PPM_H : option Q;
  PPM_A : option Q;
  goals : option Z;
  real_result : option Q;
  other_checked_nan : bool
}.

Definition DataFrame : Type := list Match.

Definition WIN_POINTS : Z := 3.
Definition DRAW_POINTS : Z := 1.
Definition REAL_MADRID_ID : Z := 1.

(** *** Cell comparisons; NaN and NaT compare false *)

Definition date_lt (c : option Z) (d : Z) : bool :=
  match c with Some v => v <? d | None => false end.

Definition date_gt (c : option Z) (d : Z) : bool :=
  match c with Some v => d <? v | None => false end.

Definition date_ge (c : option Z) (d : Z) : bool :=
  match c with Some v => d <=? v | None => false end.

Definition cell_gt (a b : option Z) : bool :=
  match a, b with Some x, Some y => y <? x | _, _ => false end.

Definition cell_eq (a b : option Z) : bool :=
  match a, b with Some x, Some y => x =? y | _, _ => false end.

Definition Qlt_bool (x y : Q) : bool := negb (Qle_bool y x).

Definition ppm_gt (c : option Q) (q : Q) : bool :=
  match c with Some v => Qlt_bool q v | None => false end.

Definition ppm_ge (c : option Q) (q : Q) : bool :=
  match c with Some v => Qle_bool q v | None => false end.

Definition ppm_le (c : option Q) (q : Q) : bool :=
  match c with Some v => Qle_bool v q | None => false end.

Definition result_is (c : option Q) (q : Q) : bool :=
  match c with Some v => Qeq_bool v q | None => false end.

Definition isnull {A : Type} (c : option A) : bool :=
  match c with Some _ => false | None => true end.

(** *** Series and frame operations *)

(** [Series.sum()], which skips NaN. *)
Definition sum_Z (col : list (option Z)) : Z :=
  fold_right (fun c acc => match c with Some v => v + acc | None => acc end) 0 col.

Definition sum_Q (col : list (option Q)) : Q :=
  fold_right (fun c acc => match c with Some v => (v + acc)%Q | None => acc end) 0%Q col.

Definition len {A : Type} (l : list A) : Z := Z.of_nat (List.length l).

(** [a / b] of Python on numbers: true division, taken exactly; the float
    the code returns is the rounding of this quotient. *)
Definition true_div (a : Q) (b : Z) : Q := (a / inject_Z b)%Q.

(** [DataFrame.head(n)]; a negative [n] drops the last [-n] rows. *)
Definition head {A : Type} (n : Z) (l : list A) : list A :=
  if 0 <=? n then firstn (Z.to_nat n) l
  else firstn (List.length l - Z.to_nat (- n)) l.

(** Order of [sort_values('match_date', ascending=False)]: later dates
    first, NaT last. *)
Definition date_before (a b : option Z) : bool :=
  match a, b with
  | Some x, Some y => y <=? x
  | Some _, None => true
  | None, Some _ => false
  | None, None => true
  end.

Fixpoint insert_desc (m : Match) (l : DataFrame) : DataFrame :=
  match l with
  | [] => [m]
  | x :: l' =>
      if date_before (match_date m) (match_date x) then m :: x :: l'
      else x :: insert_desc m l'
  end.

(** [df.sort_values('match_date', ascending=False)].  pandas does not fix
    the order of rows with equal dates; here they keep their table order.
    No statement below says which of several rows of equal date comes
    first. *)
Definition sort_values_desc (df : DataFrame) : DataFrame :=
  fold_right insert_desc [] df.

Definition plays (team_id : Z) (m : Match) : bool :=
  (home_team_id m =? team_id) || (away_team_id m =? team_id).

(** [check_NaN_column_in_RM_matches] ([utils.py]): true when none of the
    inspected columns holds a NaN. *)
Definition row_has_nan (m : Match) : bool :=
  isnull (match_date m) || isnull (home_goals m) || isnull (away_goals m)
  || other_checked_nan m.

Definition check_NaN_column_in_RM_matches (df : DataFrame) : bool :=
  negb (existsb row_has_nan df).

(** ** Rolling form ([stats_calculator.py]) *)

Module StatsCalculator.

Definition rm_prior (rm_matches : DataFrame) (mdate : Z) : DataFrame :=
  filter (fun m => date_lt (match_date m) mdate) rm_matches.

Definition opp_prior (opp_matches : DataFrame) (mdate team_id : Z) : DataFrame :=
  filter (fun m => date_lt (match_date m) mdate && plays team_id m) opp_matches.

Definition home_of (team_id : Z) (df : DataFrame) : DataFrame :=
  filter (fun m => home_team_id m =? team_id) df.

Definition away_of (team_id : Z) (df : DataFrame) : DataFrame :=
  filter (fun m => away_team_id m =? team_id) df.

Definition _calculate_real_madrid_last_5
    (rm_matches : DataFrame) (mdate : Z) (matches_count : Z) : pyval :=
  let filtered_matches := rm_prior rm_matches mdate in
  let sorted_matches := sort_values_desc filtered_matches in
  let last_matches := head matches_count sorted_matches in
  if len last_matches =? 0 then PyBool false
  else if negb (check_NaN_column_in_RM_matches last_matches) then PyBool false
  else
    let matches_count := len last_matches in
    let rm_goals := sum_Z (map goals last_matches) in
    let rm_conceded_goals :=
      sum_Z (map away_goals (home_of 1 last_matches))
      + sum_Z (map home_goals (away_of 1 last_matches)) in
    let rm_difference := rm_goals - rm_conceded_goals in
    let rm_points :=
      len (filter (fun m => result_is (real_result m) 1) last_matches) * WIN_POINTS
      + len (filter (fun m => result_is (real_result m) (1 # 2)) last_matches) * DRAW_POINTS in
    let rm_opp_ppm :=
      (sum_Q (map PPM_A (home_of 1 last_matches))
       + sum_Q (map PPM_H (away_of 1 last_matches)))%Q in
    PyDict
      [ ("RM_G_SCO_L5", PyFloat (true_div (inject_Z rm_goals) matches_count));
        ("RM_G_CON_L5", PyFloat (true_div (inject_Z rm_conceded_goals) matches_count));
        ("RM_GDIF_L5", PyFloat (true_div (inject_Z rm_difference) matches_count));
        ("RM_PPM_L5", PyFloat (true_div (inject_Z rm_points) matches_count));
        ("RM_OPP_PPM_L5", PyFloat (true_div rm_opp_ppm matches_count)) ]%string.

(** The source runs this body in a [try] whose handler returns [False];
    on a typed frame no step of the body raises, so the body alone is
    modelled and [False] is not among its results. *)
Definition _calculate_opponent_last_5
    (opp_matches : DataFrame) (mdate : Z) (team_id : Z) (matches_count : Z) : pyval :=
  let filtered_matches := opp_prior opp_matches mdate team_id in
  let sorted_matches := sort_values_desc filtered_matches in
  let last_matches := head matches_count sorted_matches in
  if len last_matches =? 0 then PyNaN
  else if negb (check_NaN_column_in_RM_matches last_matches) then PyNaN
  else
    let matches_count := len last_matches in
    let opp_goals :=
      sum_Z (map home_goals (home_of team_id last_matches))
      + sum_Z (map away_goals (away_of team_id last_matches)) in
    let opp_conceded_goals :=
      sum_Z (map away_goals (home_of team_id last_matches))
      + sum_Z (map home_goals (away_of team_id last_matches)) in
    let opp_difference := opp_goals - opp_conceded_goals in
    let home_wins :=
      len (filter (fun m => (home_team_id m =? team_id)
                            && cell_gt (home_goals m) (away_goals m)) last_matches) in
    let away_wins :=
      len (filter (fun m => (away_team_id m =? team_id)
                            && cell_gt (away_goals m) (home_goals m)) last_matches) in
    let draws :=
      len (filter (fun m => cell_eq (home_goals m) (away_goals m)) last_matches) in
    let opp_points := (home_wins + away_wins) * WIN_POINTS + draws * DRAW_POINTS in
    let point_per_match_of_rivalas_rival :=
      (sum_Q (map PPM_A (home_of team_id last_matches))
       + sum_Q (map PPM_H (away_of team_id last_matches)))%Q in
    PyDict
      [ ("OP_G_SCO_L5", PyFloat (true_div (inject_Z opp_goals) matches_count));
        ("OP_G_CON_L5", PyFloat (true_div (inject_Z opp_conceded_goals) matches_count));
        ("OP_GDIF_L5", PyFloat (true_div (inject_Z opp_difference) matches_count));
        ("OP_PPM_L5", PyFloat (true_div (inject_Z opp_points) matches_count));
        ("OP_OPP_PPM_L5",
         PyFloat (true_div point_per_match_of_rivalas_rival matches_count)) ]%string.

(** [rm_matches] and [opp_matches] are the attributes of the calculator. *)
Definition calculate_last_5_stats
    (rm_matches opp_matches : DataFrame) (mdate : Z) (team_id : Z)
    (matches_count : Z) : pyval :=
  if team_id =? 1 then _calculate_real_madrid_last_5 rm_matches mdate matches_count
  else _calculate_opponent_last_5 opp_matches mdate team_id matches_count.

End StatsCalculator.

(** ** Season and tier statistics ([season_calculator.py], [config.py]) *)

Definition TOP_TIER_MIN_PPM : Q := 19 # 10.
Definition MID_TIER_MIN_PPM : Q := 12 # 10.
Definition MID_TIER_MAX_PPM : Q := 19 # 10.
Definition LOW_TIER_MAX_PPM : Q := 12 # 10.

Definition bind {A B : Type} (x : outcome A) (k : A -> outcome B) : outcome B :=
  match x with
  | Returned a => k a
  | Raised e => Raised e
  end.

Module SeasonCalculator.

Import StatsCalculator.

(** [get_all_opp_matches]: the rows of [all_matches.csv] (here the
    argument [all_matches]) in which the team plays; [None] when there
    is none.  The file is taken as read; a missing or unreadable file is
    outside the model. *)
Definition get_all_opp_matches (all_matches : DataFrame) (team_id : Z)
  : option DataFrame :=
  match filter (plays team_id) all_matches with
  | [] => None
  | team_matches => Some team_matches
  end.

(** Points of [team_id] over a frame, from the goals of both sides. *)
Definition points_from_goals (team_id : Z) (df : DataFrame) : Z :=
  let home_games := home_of team_id df in
  let away_games := away_of team_id df in
  let home_wins :=
    len (filter (fun m => cell_gt (home_goals m) (away_goals m)) home_games) in
  let away_wins :=
    len (filter (fun m => cell_gt (away_goals m) (home_goals m)) away_games) in
  let home_draws :=
    len (filter (fun m => cell_eq (home_goals m) (away_goals m)) home_games) in
  let away_draws :=
    len (filter (fun m => cell_eq (away_goals m) (home_goals m)) away_games) in
  let total_wins := home_wins + away_wins in
  let total_draws := home_draws + away_draws in
  total_wins * WIN_POINTS + total_draws * DRAW_POINTS.

(** Points of Real Madrid over a frame, from the column [real_result]. *)
Definition points_from_real_result (df : DataFrame) : Z :=
  len (filter (fun m => result_is (real_result m) 1) df) * WIN_POINTS
  + len (filter (fun m => result_is (real_result m) (1 # 2)) df) * DRAW_POINTS.

(** The rows from [start] (included) up to [mdate] (excluded). *)
Definition season_window (start mdate : Z) (df : DataFrame) : DataFrame :=
  filter (fun m => date_ge (match_date m) start && date_lt (match_date m) mdate) df.

(** [rm_matches], [seasons] (the season manager) and [team_id] are the
    attributes of the calculator; [all_matches] is the table read by
    [get_all_opp_matches]. *)
Definition calculate_team_points_per_match_season
    (rm_matches : DataFrame) (seasons : list Season) (all_matches : DataFrame)
    (team_id : Z) (mdate : Z) : outcome pyval :=
  let current_season := SeasonManager.get_season seasons mdate in
  let previous_season := SeasonManager.get_previous_season seasons current_season in
  if negb (team_id =? 1) then
    match get_all_opp_matches all_matches team_id with
    | None => Returned PyNone
    | Some opp_matches =>
        match previous_season with
        | PrevTrue => Returned (PyInt 0)
        | PrevNone => Raised TypeError (* None["start_date"] *)
        | PrevDict prev =>
            let filtered_matches := season_window (start_date prev) mdate opp_matches in
            if len filtered_matches =? 0 then Returned PyNaN
            else
              let total_points := points_from_goals team_id filtered_matches in
              Returned (PyFloat (true_div (inject_Z total_points) (len filtered_matches)))
        end
    end
  else
    match previous_season with
    | PrevTrue => Returned (PyInt 0)
    | PrevNone => Returned (PyInt 0)
    | PrevDict prev =>
        let filtered_matches := season_window (start_date prev) mdate rm_matches in
        if len filtered_matches =? 0 then Returned PyNaN
        else
          let total_points := points_from_real_result filtered_matches in
          Returned (PyFloat (true_div (inject_Z total_points) (len filtered_matches)))
    end.

(** *** Tier statistics *)

(** Window of the other-team branch: from the start of the previous
    season, or from 2019-08-01 in the first season. *)
Definition opp_tier_window (previous_season : prev_season) (mdate : Z)
    (opp_matches : DataFrame) : outcome DataFrame :=
  match previous_season with
  | PrevTrue =>
      Returned (filter (fun m => date_ge (match_date m) (ymd 2019 8 1)
                                 && date_lt (match_date m) mdate) opp_matches)
  | PrevDict prev =>
      Returned (filter (fun m => date_lt (match_date m) mdate
                                 && date_ge (match_date m) (start_date prev)) opp_matches)
  | PrevNone => Raised TypeError (* None["start_date"] *)
  end.

(** Row selection of the other-team branch. *)
Definition opp_tier_row (team_id : Z) (min_ppm : Q) (max_ppm : option Q)
    (m : Match) : bool :=
  match max_ppm with
  | None =>
      ((home_team_id m =? team_id) && ppm_gt (PPM_A m) min_ppm)
      || ((away_team_id m =? team_id) && ppm_gt (PPM_H m) min_ppm)
  | Some max_ppm =>
      ((home_team_id m =? team_id)
       && ppm_ge (PPM_A m) min_ppm && ppm_le (PPM_A m) max_ppm)
      || ((away_team_id m =? team_id)
          && ppm_ge (PPM_H m) min_ppm && ppm_le (PPM_H m) max_ppm)
  end.

(** Window of the Real Madrid branch: strictly after the start of the
    previous season. *)
Definition rm_tier_window (prev : Season) (mdate : Z) (rm_matches : DataFrame)
  : DataFrame :=
  filter (fun m => date_lt (match_date m) mdate
                   && date_gt (match_date m) (start_date prev)) rm_matches.

(** Row selection of the Real Madrid branch. *)
Definition rm_tier_row (min_ppm : Q) (max_ppm : option Q) (m : Match) : bool :=
  match max_ppm with
  | None => ppm_gt (PPM_H m) min_ppm || ppm_gt (PPM_A m) min_ppm
  | Some max_ppm =>
      (ppm_ge (PPM_H m) min_ppm && ppm_le (PPM_H m) max_ppm)
      || (ppm_ge (PPM_A m) min_ppm && ppm_le (PPM_A m) max_ppm)
  end.

(** The frame [tier_matches] of [calculate_team_stats_against_tier], for
    either branch; [None] when the function returns before building it. *)
Definition tier_matches
    (rm_matches : DataFrame) (seasons : list Season) (all_matches : DataFrame)
    (team_id : Z) (mdate : Z) (min_ppm : Q) (max_ppm : option Q)
  : outcome (option DataFrame) :=
  let current_season := SeasonManager.get_season seasons mdate in
  let previous_season := SeasonManager.get_previous_season seasons current_season in
  if negb (team_id =? 1) then
    match get_all_opp_matches all_matches team_id with
    | None => Returned None
    | Some opp_matches =>
        bind (opp_tier_window previous_season mdate opp_matches)
             (fun filtered_matches =>
                Returned (Some (filter (opp_tier_row team_id min_ppm max_ppm)
                                       filtered_matches)))
    end
  else
    match previous_season with
    | PrevTrue => Returned None
    | PrevNone => Returned None
    | PrevDict prev =>
        Returned (Some (filter (rm_tier_row min_ppm max_ppm)
                               (rm_tier_window prev mdate rm_matches)))
    end.

Definition calculate_team_stats_against_tier
    (rm_matches : DataFrame) (seasons : list Season) (all_matches : DataFrame)
    (team_id : Z) (mdate : Z) (min_ppm : Q) (max_ppm : option Q)
  : outcome (pyval * pyval) :=
  bind (tier_matches rm_matches seasons all_matches team_id mdate min_ppm max_ppm)
       (fun tm =>
          match tm with
          | None => Returned (PyBool false, PyBool false)
          | Some tier_matches =>
              if len tier_matches =? 0 then Returned (PyNaN, PyNaN)
              else if negb (team_id =? 1) then
                let home_games := home_of team_id tier_matches in
                let away_games := away_of team_id tier_matches in
                if (len home_games =? 0) && (len away_games =? 0)
                then Returned (PyNaN, PyNaN) else
                let goals_scored :=
                  sum_Z (map home_goals home_games) + sum_Z (map away_goals away_games) in
                let total_points := points_from_goals team_id tier_matches in
                let avg_goals := true_div (inject_Z goals_scored) (len tier_matches) in
                let avg_points := true_div (inject_Z total_points) (len tier_matches) in
                Returned (PyFloat avg_goals, PyFloat avg_points)
              else
                let goals_scored := sum_Z (map goals tier_matches) in
                let points := points_from_real_result tier_matches in
                let avg_goals := true_div (inject_Z goals_scored) (len tier_matches) in
                let avg_points := true_div (inject_Z points) (len tier_matches) in
                Returned (PyFloat avg_goals, PyFloat avg_points)
          end).

Section Tiers.

Variables (rm_matches : DataFrame) (seasons : list Season)
          (all_matches : DataFrame) (team_id : Z).

Let stats := calculate_team_stats_against_tier rm_matches seasons all_matches team_id.

Definition calculate_team_goals_against_top (mdate : Z) : outcome pyval :=
  bind (stats mdate TOP_TIER_MIN_PPM None) (fun r => Returned (fst r)).

Definition calculate_team_points_against_top (mdate : Z) : outcome pyval :=
  bind (stats mdate TOP_TIER_MIN_PPM None) (fun r => Returned (snd r)).

Definition calculate_team_goals_against_mid (mdate : Z) : outcome pyval :=
  bind (stats mdate MID_TIER_MIN_PPM (Some MID_TIER_MAX_PPM))
       (fun r => Returned (fst r)).

Definition calculate_team_points_against_mid (mdate : Z) : outcome pyval :=
  bind (stats mdate MID_TIER_MIN_PPM (Some MID_TIER_MAX_PPM))
       (fun r => Returned (snd r)).

Definition calculate_team_goals_against_low (mdate : Z) : outcome pyval :=
  bind (stats mdate 0%Q (Some LOW_TIER_MAX_PPM)) (fun r => Returned (fst r)).

Definition calculate_team_points_against_low (mdate : Z) : outcome pyval :=
  bind (stats mdate 0%Q (Some LOW_TIER_MAX_PPM)) (fun r => Returned (snd r)).

End Tiers.

End SeasonCalculator.

(** ** Head-to-head ([h2h_calculator.py]) *)

Module H2H.

(** A row in which Real Madrid and [opp_id] meet. *)
Definition meeting (opp_id : Z) (m : Match) : bool :=
  ((home_team_id m =? REAL_MADRID_ID) && (away_team_id m =? opp_id))
  || ((home_team_id m =? opp_id) && (away_team_id m =? REAL_MADRID_ID)).

(** [get_h2h_matches]; [None] is Python's [None].  The frame is typed, so
    [validate_h2h_dataframe] finds every required column.  [last_n] is
    [None] or an integer, and is used only when truthy. *)
Definition get_h2h_matches (df : DataFrame) (opp_id : Z) (mdate : Z)
    (last_n : option Z) : option DataFrame :=
  let h2h_matches :=
    filter (fun m => date_lt (match_date m) mdate && meeting opp_id m) df in
  match h2h_matches with
  | [] => None
  | _ =>
      let h2h_matches := sort_values_desc h2h_matches in
      match last_n with
      | Some n => if negb (n =? 0) then Some (head n h2h_matches) else Some h2h_matches
      | None => Some h2h_matches
      end
  end.

Definition rm_wins (h2h_matches : DataFrame) : Z :=
  let rm_home_wins :=
    len (filter (fun m => (home_team_id m =? REAL_MADRID_ID)
                          && cell_gt (home_goals m) (away_goals m)) h2h_matches) in
  let rm_away_wins :=
    len (filter (fun m => (away_team_id m =? REAL_MADRID_ID)
                          && cell_gt (away_goals m) (home_goals m)) h2h_matches) in
  rm_home_wins + rm_away_wins.

Definition draws (h2h_matches : DataFrame) : Z :=
  len (filter (fun m => cell_eq (home_goals m) (away_goals m)) h2h_matches).

Definition calculate_h2h_stats (df : DataFrame) (opp_id : Z) (mdate : Z)
    (last_n : option Z) : pyval :=
  match get_h2h_matches df opp_id mdate last_n with
  | None => PyNone
  | Some [] => PyNone
  | Some h2h_matches =>
      let total_matches := len h2h_matches in
      let total_wins := rm_wins h2h_matches in
      let win_ratio := true_div (inject_Z total_wins) total_matches in
      let points_per_match :=
        true_div (inject_Z (total_wins * WIN_POINTS + draws h2h_matches * DRAW_POINTS))
                 total_matches in
      let rm_goals :=
        sum_Z (map home_goals (StatsCalculator.home_of REAL_MADRID_ID h2h_matches))
        + sum_Z (map away_goals (StatsCalculator.away_of REAL_MADRID_ID h2h_matches)) in
      let opp_goals :=
        sum_Z (map away_goals (StatsCalculator.home_of REAL_MADRID_ID h2h_matches))
        + sum_Z (map home_goals (StatsCalculator.away_of REAL_MADRID_ID h2h_matches)) in
      let goals_balance := rm_goals - opp_goals in
      PyDict [ ("win_ratio", PyFloat win_ratio);
               ("points_per_match", PyFloat points_per_match);
               ("goals_balance", PyInt goals_balance) ]%string
  end.

Definition calculate_h2h_overall_ppm (df : DataFrame) (opp_id : Z) (mdate : Z) : pyval :=
  match get_h2h_matches df opp_id mdate None with
  | None => PyNone
  | Some [] => PyNone
  | Some h2h_matches =>
      PyFloat (true_div
                 (inject_Z (rm_wins h2h_matches * WIN_POINTS
                            + draws h2h_matches * DRAW_POINTS))
                 (len h2h_matches))
  end.

Definition is_playing_before (df : DataFrame) (mdate : Z) (team_id : Z) : bool :=
  match get_h2h_matches df team_id mdate None with
  | None => false
  | Some [] => false
  | Some _ => true
  end.

End H2H.

(** ** Opponent wrappers ([stats_functions.py]) *)

Module StatsFunctions.

(** The common body: [result = stats._calculate_opponent_last_5(..., 5)],
    then [if result: return result[key]], else [np.nan].  [opp_matches] is
    the attribute of the calculator [stats]. *)
Definition last_5_field (key : string) (opp_matches : DataFrame)
    (mdate : Z) (team_id : Z) : outcome pyval :=
  let result := StatsCalculator._calculate_opponent_last_5 opp_matches mdate team_id 5 in
  if truthy result then subscript result key
  else Returned PyNaN.

Definition calculate_OP_G_SCO_L5 := last_5_field "OP_G_SCO_L5".
Definition calculate_OP_G_CON_L5 := last_5_field "OP_G_CON_L5".
Definition calculate_OP_GDIF_L5 := last_5_field "OP_GDIF_L5".
Definition calculate_OP_OPP_POS_L5 := last_5_field "OP_OPP_PPM_L5".
Definition calculate_OP_PPM_L5 := last_5_field "OP_PPM_L5".

End StatsFunctions.

(** ** Further season queries ([season_manager.py]) *)

Module SeasonQueries.

(** [get_season_for_date]: an alias of [get_season]. *)
Definition get_season_for_date (seasons : list Season) (match_date : Z)
  : option Season :=
  SeasonManager.get_season seasons match_date.

(** [get_season_name]: the name of the season, or the empty string. *)
Definition get_season_name (seasons : list Season) (match_date : Z) : string :=
  match SeasonManager.get_season seasons match_date with
  | None => EmptyString
  | Some season => name season
  end.

(** [is_valid_season_date]: [get_season(match_date) is not None]. *)
Definition is_valid_season_date (seasons : list Season) (match_date : Z) : bool :=
  match SeasonManager.get_season seasons match_date with
  | None => false
  | Some _ => true
  end.

End SeasonQueries.

(** ** Season totals of an opponent ([extended_stats.py]) *)

Module ExtendedStats.

(** The body shared by [calculate_OP_G_SCO_ALL] and
    [calculate_OP_G_CON_ALL]; [total] is the sum taken over the window.
    Subscripting [None] (no season for the date) raises inside the [try],
    and the handler returns [np.nan]. *)
Definition season_total (total : Z -> DataFrame -> Z)
    (seasons : list Season) (all_matches : DataFrame)
    (opponent_id : Z) (mdate : Z) : pyval :=
  let current_season := SeasonManager.get_season seasons mdate in
  let previous_season := SeasonManager.get_previous_season seasons current_season in
  match previous_season with
  | PrevTrue => PyInt 0
  | _ =>
      match SeasonCalculator.get_all_opp_matches all_matches opponent_id with
      | None => PyNaN
      | Some opp_matches =>
          match previous_season with
          | PrevDict prev =>
              let filtered_matches :=
                SeasonCalculator.season_window (start_date prev) mdate opp_matches in
              if len filtered_matches =? 0 then PyInt 0
              else PyInt (total opponent_id filtered_matches)
          | _ => PyNaN
          end
      end
  end.

Definition goals_scored_in (opponent_id : Z) (filtered_matches : DataFrame) : Z :=
  sum_Z (map home_goals (StatsCalculator.home_of opponent_id filtered_matches))
  + sum_Z (map away_goals (StatsCalculator.away_of opponent_id filtered_matches)).

Definition goals_conceded_in (opponent_id : Z) (filtered_matches : DataFrame) : Z :=
  sum_Z (map away_goals (StatsCalculator.home_of opponent_id filtered_matches))
  + sum_Z (map home_goals (StatsCalculator.away_of opponent_id filtered_matches)).

Definition calculate_OP_G_SCO_ALL := season_total goals_scored_in.
Definition calculate_OP_G_CON_ALL := season_total goals_conceded_in.

(** [v == 0] and [v > 0] on the values the totals can take; a comparison
    with [np.nan] is false. *)
Definition is_zero (v : pyval) : bool :=
  match v with
  | PyInt z => z =? 0
  | PyFloat q => Qeq_bool q 0
  | _ => false
  end.

Definition is_positive (v : pyval) : bool :=
  match v with
  | PyInt z => 0 <? z
  | PyFloat q => Qlt_bool 0 q
  | _ => false
  end.

(** [a / b] for a non-zero [b]; [np.nan] is absorbing. *)
Definition divide (a b : pyval) : pyval :=
  match a, b with
  | PyInt x, PyInt y => PyFloat (true_div (inject_Z x) y)
  | _, _ => PyNaN
  end.

Definition calculate_OP_G_SCO_G_CON_RAT
    (seasons : list Season) (all_matches : DataFrame)
    (opponent_id : Z) (mdate : Z) : pyval :=
  let goals_scored := calculate_OP_G_SCO_ALL seasons all_matches opponent_id mdate in
  let goals_conceded := calculate_OP_G_CON_ALL seasons all_matches opponent_id mdate in
  if is_zero goals_conceded then
    if is_positive goals_scored then goals_scored else PyInt 0
  else divide goals_scored goals_conceded.

End ExtendedStats.

(** ** Season and tier wrappers ([stats_functions.py]) *)

Module SeasonWrappers.

(** [result if result is not None else np.nan]. *)
Definition none_to_nan (result : pyval) : pyval :=
  match result with PyNone => PyNaN | _ => result end.

(** [result if result is not False else np.nan]. *)
Definition false_to_nan (result : pyval) : pyval :=
  match result with PyBool false => PyNaN | _ => result end.

Section Calc.

(** The attributes of the calculator [calc] and the all-matches table. *)
Variables (rm_matches : DataFrame) (seasons : list Season)
          (all_matches : DataFrame) (team_id : Z).

Definition calculate_OP_PPM_SEA (mdate : Z) : outcome pyval :=
  bind (SeasonCalculator.calculate_team_points_per_match_season
          rm_matches seasons all_matches team_id mdate)
       (fun result => Returned (none_to_nan result)).

Definition calculate_OP_GPM_1_9_PPR (mdate : Z) : outcome pyval :=
  bind (SeasonCalculator.calculate_team_goals_against_top
          rm_matches seasons all_matches team_id mdate)
       (fun result => Returned (false_to_nan result)).

Definition calculate_OP_PPM_1_9_PPR (mdate : Z) : outcome pyval :=
  bind (SeasonCalculator.calculate_team_points_against_top
          rm_matches seasons all_matches team_id mdate)
       (fun result => Returned (false_to_nan result)).

Definition calculate_OP_GPM_1_2__1_9_PPM (mdate : Z) : outcome pyval :=
  bind (SeasonCalculator.calculate_team_goals_against_mid
          rm_matches seasons all_matches team_id mdate)
       (fun result => Returned (false_to_nan result)).

Definition calculate_OP_PPM_1_2__1_9_PPM (mdate : Z) : outcome pyval :=
  bind (SeasonCalculator.calculate_team_points_against_mid
          rm_matches seasons all_matches team_id mdate)
       (fun result => Returned (false_to_nan result)).

Definition calculate_OP_GPM_0_1_2_PPM (mdate : Z) : outcome pyval :=
  bind (SeasonCalculator.calculate_team_goals_against_low
          rm_matches seasons all_matches team_id mdate)
       (fun result => Returned (false_to_nan result)).

Definition calculate_OP_PPM_0_1_2_PPM (mdate : Z) : outcome pyval :=
  bind (SeasonCalculator.calculate_team_points_against_low
          rm_matches seasons all_matches team_id mdate)
       (fun result => Returned (false_to_nan result)).

End Calc.

End SeasonWrappers.

(** ** Coaches ([coach_manager.py]) *)

Module CoachManager.

(** One row of the coach table. *)
Record Coach : Type := mkCoach {
  coach_id : Z;
  coach_name : string;
  start_date : Z;
  end_date : Z
}.

(** [matching['col'].iloc[0]] after the emptiness test. *)
Definition first_of {A B : Type} (f : A -> B) (matching : list A) : option B :=
  match matching with
  | [] => None
  | c :: _ => Some (f c)
  end.

Definition get_coach_id_by_date (coach_data : list Coach) (match_date : Z) : option Z :=
  first_of coach_id
    (filter (fun c => (start_date c <=? match_date) && (match_date <=? end_date c))
            coach_data).

Definition get_coach_id_by_name (coach_data : list Coach) (nm : string) : option Z :=
  first_of coach_id (filter (fun c => String.eqb (coach_name c) nm) coach_data).

Definition get_coach_name_by_id (coach_data : list Coach) (id : Z) : option string :=
  first_of coach_name (filter (fun c => coach_id c =? id) coach_data).

Definition validate_coach_exists (coach_data : list Coach) (id : Z) : bool :=
  match filter (fun c => coach_id c =? id) coach_data with
  | [] => false
  | _ => true
  end.

End CoachManager.

(** ** Coach ratings ([stats_calculator.py]) *)

Module CoachRatings.

(** A row of the Real Madrid table together with its cell of the column
    [RM_COACH_RATING] (['RM_coach_rating_EDI']). *)
Record RatedMatch : Type := mkRated {
  rated_row : Match;
  coach_rating : option Q
}.

Definition rated_date (r : RatedMatch) : option Z := match_date (rated_row r).

(** [valid_matches[RM_COACH_RATING].mean()] over the rows whose rating is
    not NaN; [np.nan] when there is none. *)
Definition mean_rating (matches : list RatedMatch) : pyval :=
  let valid_matches := filter (fun r => negb (isnull (coach_rating r))) matches in
  match valid_matches with
  | [] => PyNaN
  | _ => PyFloat (true_div (sum_Q (map coach_rating valid_matches)) (len valid_matches))
  end.

(** [calculate_coach_rating_last_season]; the argument [coach_id] of the
    source is never read.  In the first season the window is
    [SEASON_DATES[0]], both ends included; otherwise the previous season,
    both ends excluded. *)
Definition calculate_coach_rating_last_season
    (rm_matches : list RatedMatch) (seasons : list Season) (mdate : Z) : pyval :=
  let current_season := SeasonManager.get_season seasons mdate in
  let previous_season := SeasonManager.get_previous_season seasons current_season in
  match previous_season with
  | PrevTrue =>
      let first := nth 0 SEASON_DATES (0, 0) in
      mean_rating
        (filter (fun r => date_ge (rated_date r) (fst first)
                          && negb (date_gt (rated_date r) (snd first)))
                rm_matches)
  | PrevNone => PyNaN
  | PrevDict prev =>
      mean_rating
        (filter (fun r => date_gt (rated_date r) (start_date prev)
                          && date_lt (rated_date r) (end_date prev))
                rm_matches)
  end.

End CoachRatings.

(** ** Per-match contributions and windows used by the statements *)

Definition Zsum {A : Type} (f : A -> Z) (l : list A) : Z :=
  fold_right (fun m acc => f m + acc) 0 l.

Definition Qsum {A : Type} (f : A -> Q) (l : list A) : Q :=
  fold_right (fun m acc => (f m + acc)%Q) 0%Q l.

Definition nz (c : option Z) : Z := match c with Some v => v | None => 0 end.
Definition nq (c : option Q) : Q := match c with Some v => v | None => 0%Q end.

(** Goals scored and conceded by [team_id] in a match, by its role. *)
Definition goals_for (team_id : Z) (m : Match) : Z :=
  (if home_team_id m =? team_id then nz (home_goals m) else 0)
  + (if away_team_id m =? team_id then nz (away_goals m) else 0).

Definition goals_against (team_id : Z) (m : Match) : Z :=
  (if home_team_id m =? team_id then nz (away_goals m) else 0)
  + (if away_team_id m =? team_id then nz (home_goals m) else 0).

(** Pre-match PPM of the side facing [team_id]. *)
Definition rival_ppm (team_id : Z) (m : Match) : Q :=
  ((if home_team_id m =? team_id then nq (PPM_A m) else 0)
   + (if away_team_id m =? team_id then nq (PPM_H m) else 0))%Q.

(** Points of [team_id] in a match as the rolling form counts them: a win
    by role, a draw whatever the role. *)
Definition form_points (team_id : Z) (m : Match) : Z :=
  ((if (home_team_id m =? team_id) && cell_gt (home_goals m) (away_goals m) then 1 else 0)
   + (if (away_team_id m =? team_id) && cell_gt (away_goals m) (home_goals m) then 1 else 0))
  * WIN_POINTS
  + (if cell_eq (home_goals m) (away_goals m) then 1 else 0) * DRAW_POINTS.

(** Points of [team_id] in a match as the season statistics count them:
    wins and draws both by role. *)
Definition season_points (team_id : Z) (m : Match) : Z :=
  ((if (home_team_id m =? team_id) && cell_gt (home_goals m) (away_goals m) then 1 else 0)
   + (if (away_team_id m =? team_id) && cell_gt (away_goals m) (home_goals m) then 1 else 0))
  * WIN_POINTS
  + ((if (home_team_id m =? team_id) && cell_eq (home_goals m) (away_goals m) then 1 else 0)
     + (if (away_team_id m =? team_id) && cell_eq (away_goals m) (home_goals m) then 1 else 0))
    * DRAW_POINTS.

(** Points of Real Madrid in a match, from [real_result]. *)
Definition rm_points (m : Match) : Z :=
  (if result_is (real_result m) 1 then 1 else 0) * WIN_POINTS
  + (if result_is (real_result m) (1 # 2) then 1 else 0) * DRAW_POINTS.

(** The rows dated strictly before [D]: what a computation as of [D] may
    look at. *)
Definition rows_before (D : Z) (df : DataFrame) : DataFrame :=
  filter (fun m => date_lt (match_date m) D) df.

(** The window in the words of the specification: rows inside the date
    range of the previous season and strictly before the as-of date. *)
Definition previous_season_only (prev : Season) (mdate : Z) (df : DataFrame)
  : DataFrame :=
  filter (fun m => date_ge (match_date m) (start_date prev)
                   && negb (date_gt (match_date m) (end_date prev))
                   && date_lt (match_date m) mdate) df.

(** The side facing [team_id] has a pre-match PPM of at least [q]. *)
Definition rival_ppm_at_least (team_id : Z) (q : Q) (m : Match) : bool :=
  ((home_team_id m =? team_id) && ppm_ge (PPM_A m) q)
  || ((away_team_id m =? team_id) && ppm_ge (PPM_H m) q).

(** A plain row with dates, sides, goals and both PPM; no NaN. *)
Definition row (d : Z) (home away hg ag : Z) (ppm_h ppm_a : Q) : Match :=
  mkMatch (Some d) home away (Some hg) (Some ag) (Some ppm_h) (Some ppm_a)
          None None false.

(** A row of the Real Madrid table. *)
Definition rm_row (d : Z) (home away hg ag : Z) (ppm_h ppm_a : Q)
    (rm_goals : Z) (res : Q) : Match :=
  mkMatch (Some d) home away (Some hg) (Some ag) (Some ppm_h) (Some ppm_a)
          (Some rm_goals) (Some res) false.

(** A season's closed date range holds the date. *)
Definition holds_date (d : Z) (s : Season) : Prop :=
  start_date s <= d <= end_date s.

(** Each season ends before the next one in the list starts. *)
Definition chronological (seasons : list Season) : Prop :=
  StronglySorted (fun a b => end_date a < start_date b) seasons.

(** [a] is dated no earlier than [b] (a missing date counts as earliest). *)
Definition more_recent (a b : Match) : Prop :=
  date_before (match_date a) (match_date b) = true.

(** The meetings of Real Madrid (id 1) with [opp_id] dated strictly before
    [mdate]: one of the two is the home side and the other the away side. *)
Definition prior_meetings (df : DataFrame) (opp_id mdate : Z) : DataFrame :=
  filter (fun m =>
            match match_date m with Some v => v <? mdate | None => false end
            && (((home_team_id m =? 1) && (away_team_id m =? opp_id))
                || ((home_team_id m =? opp_id) && (away_team_id m =? 1))))
         df.

(** The PPM cell of the side facing [team_id]. *)
Definition rival_ppm_cell (team_id : Z) (m : Match) : option Q :=
  if home_team_id m =? team_id then PPM_A m else PPM_H m.

(** A row with two different sides whose rival PPM is a number, not
    negative and not exactly 1.2. *)
Definition off_boundary_row (team_id : Z) (m : Match) : Prop :=
  home_team_id m <> away_team_id m
  /\ exists q, rival_ppm_cell team_id m = Some q
               /\ (0 <= q)%Q /\ ~ (q == LOW_TIER_MAX_PPM)%Q.

(** *** The rolling form, stated from the table *)

(** The row is dated, and strictly before [mdate]. *)
Definition dated_before (mdate : Z) (m : Match) : bool :=
  match match_date m with
  | Some v => v <? mdate
  | None => false
  end.

(** [team_id] is the home or the away side of the row. *)
Definition on_a_side (team_id : Z) (m : Match) : bool :=
  (home_team_id m =? team_id) || (away_team_id m =? team_id).

(** The matches of a team strictly before [mdate]: for Real Madrid the
    rows of its own table, for another team the rows of the all-matches
    table in which it is a side. *)
Definition matches_before (team_id mdate : Z) (rm_matches opp_matches : DataFrame)
  : DataFrame :=
  if team_id =? 1 then filter (dated_before mdate) rm_matches
  else filter (fun m => dated_before mdate m && on_a_side team_id m) opp_matches.

(** A cell of the date, of the goals of either side or of another
    inspected column is missing in the row. *)
Definition checked_cell_missing (m : Match) : bool :=
  match match_date m, home_goals m, away_goals m with
  | Some _, Some _, Some _ => other_checked_nan m
  | _, _, _ => true
  end.

(** The sum of an integer, or rational, contribution over the rows,
    divided by the number of rows. *)
Definition mean_over (f : Match -> Z) (l : DataFrame) : Q :=
  (inject_Z (Zsum f l) / inject_Z (Z.of_nat (List.length l)))%Q.

Definition qmean_over (f : Match -> Q) (l : DataFrame) : Q :=
  (Qsum f l / inject_Z (Z.of_nat (List.length l)))%Q.

(** Points of a match for [team_id], read off the goals: 3 for a win in
    the role it has, 1 for a draw, 0 otherwise and when a goal cell is
    missing. *)
Definition more_goals (a b : option Z) : bool :=
  match a, b with Some x, Some y => y <? x | _, _ => false end.

Definition same_goals (a b : option Z) : bool :=
  match a, b with Some x, Some y => x =? y | _, _ => false end.

Definition match_points (team_id : Z) (m : Match) : Z :=
  if ((home_team_id m =? team_id) && more_goals (home_goals m) (away_goals m))
     || ((away_team_id m =? team_id) && more_goals (away_goals m) (home_goals m))
  then 3
  else if same_goals (home_goals m) (away_goals m) then 1
  else 0.

(** Points of a match for Real Madrid, read off [real_result]: 3 for 1,
    1 for 0.5, 0 otherwise. *)
Definition rm_match_points (m : Match) : Z :=
  match real_result m with
  | Some v => if Qeq_bool v 1 then 3 else if Qeq_bool v (1 # 2) then 1 else 0
  | None => 0
  end.

(** When both rows are dated, [a] is dated no earlier than [b]. *)
Definition not_older (a b : Match) : Prop :=
  forall x y, match_date a = Some x -> match_date b = Some y -> y <= x.

(** ** Example tables *)

(** Two matches of team 2 before March 2021, one win at home and one draw
    away, and a later match. *)
Definition ex_form_table : DataFrame :=
  [ row (ymd 2021 1 10) 2 3 2 0 (1 # 1) (1 # 1);
    row (ymd 2021 2 10) 4 2 1 1 (2 # 1) (1 # 1);
    row (ymd 2021 4 10) 2 5 0 3 (1 # 1) (1 # 1) ].

(** The same table with the result of the later match changed. *)
Definition ex_form_table_changed : DataFrame :=
  [ row (ymd 2021 1 10) 2 3 2 0 (1 # 1) (1 # 1);
    row (ymd 2021 2 10) 4 2 1 1 (2 # 1) (1 # 1);
    row (ymd 2021 4 10) 2 5 4 1 (1 # 1) (1 # 1) ].

(** One match of team 2, played a month after 2019-09-01, and the same
    match with another home team. *)
Definition ex_future_match : DataFrame :=
  [ row (ymd 2019 10 1) 2 3 1 0 (0 # 1) (0 # 1) ].

Definition ex_future_match_changed : DataFrame :=
  [ row (ymd 2019 10 1) 4 3 1 0 (0 # 1) (0 # 1) ].

(** Real Madrid: a home win in season 2019-2020 and a home defeat in
    season 2020-2021. *)
Definition ex_rm_two_seasons : DataFrame :=
  [ rm_row (ymd 2020 2 1) 1 2 2 0 (2 # 1) (1 # 1) 2 1;
    rm_row (ymd 2020 10 1) 1 3 0 1 (2 # 1) (1 # 1) 0 0 ].

Definition season_2019_2020 : Season :=
  mkSeason "2019-2020" (ymd 2019 8 16) (ymd 2020 7 19).

(** Real Madrid at home on 2020-02-01, own PPM 2.5, against a side with
    PPM 1.0. *)
Definition ex_rm_vs_weak : Match :=
  rm_row (ymd 2020 2 1) 1 3 2 0 (5 # 2) (1 # 1) 2 1.

(** Team 2 at home on 2020-02-01 against a side with PPM exactly 1.9, and
    against a side with PPM exactly 1.2. *)
Definition ex_vs_ppm_1_9 : Match :=
  row (ymd 2020 2 1) 2 3 1 1 (1 # 1) (19 # 10).

Definition ex_vs_ppm_1_2 : Match :=
  row (ymd 2020 2 1) 2 3 1 1 (1 # 1) (12 # 10).

(** The three meetings of the example: Real Madrid (1) against team 2,
    3-0, 1-1 and 1-2; each flag says whether Real Madrid played at home. *)
Definition meeting_row (d : Z) (rm_home : bool) (rm_goals opp_goals : Z) : Match :=
  if rm_home then row d 1 2 rm_goals opp_goals (0 # 1) (0 # 1)
  else row d 2 1 opp_goals rm_goals (0 # 1) (0 # 1).

Definition ex_h2h (h1 h2 h3 : bool) : DataFrame :=
  [ meeting_row (ymd 2021 1 1) h1 3 0;
    meeting_row (ymd 2021 6 1) h2 1 1;
    meeting_row (ymd 2022 1 1) h3 1 2 ].

(** A coach table with two coaches. *)
Definition ex_coaches : list CoachManager.Coach :=
  [ CoachManager.mkCoach 1 "Zidane" (ymd 2019 3 11) (ymd 2021 5 27);
    CoachManager.mkCoach 2 "Ancelotti" (ymd 2021 6 1) (ymd 2025 5 25) ].

(** Real Madrid rows with coach ratings 6 and 7 in season 2019-2020 and a
    rating in 2021, and the same table with the last rating changed. *)
Definition ex_rated : list CoachRatings.RatedMatch :=
  [ CoachRatings.mkRated (rm_row (ymd 2019 10 1) 1 2 2 0 (2 # 1) (1 # 1) 2 1) (Some (6 # 1));
    CoachRatings.mkRated (rm_row (ymd 2020 3 1) 3 1 1 1 (1 # 1) (2 # 1) 1 (1 # 2)) (Some (7 # 1));
    CoachRatings.mkRated (rm_row (ymd 2021 2 1) 1 4 0 1 (2 # 1) (1 # 1) 0 0) (Some (5 # 1)) ].

Definition ex_rated_changed : list CoachRatings.RatedMatch :=
  [ CoachRatings.mkRated (rm_row (ymd 2019 10 1) 1 2 2 0 (2 # 1) (1 # 1) 2 1) (Some (6 # 1));
    CoachRatings.mkRated (rm_row (ymd 2020 3 1) 3 1 1 1 (1 # 1) (2 # 1) 1 (1 # 2)) (Some (7 # 1));
    CoachRatings.mkRated (rm_row (ymd 2021 2 1) 1 4 0 1 (2 # 1) (1 # 1) 0 0) (Some (9 # 1)) ].

(** * Season registry *)

Section SeasonRegistry.

Import SeasonManager.

Lemma index_of_name_sound seasons nm k :
  index_of_name seasons nm = Some k ->
  nth_error (map name seasons) k = Some nm
  /\ ~ In nm (firstn k (map name seasons)).
Proof.
  revert k. induction seasons as [|s rest IH]; intros k H; simpl in H.
  - discriminate.
  - destruct (String.eqb (name s) nm) eqn:E.
    + injection H as <-. apply String.eqb_eq in E. simpl. split; [congruence | tauto].
    + destruct (index_of_name rest nm) as [j|] eqn:Ej; simpl in H; [|discriminate].
      injection H as <-. destruct (IH j eq_refl) as [H1 H2].
      simpl. split; [exact H1|].
      intros [Hs | Hin]; [|tauto].
      apply String.eqb_neq in E. congruence.
Qed.

Lemma index_of_name_none seasons nm :
  index_of_name seasons nm = None <-> ~ In nm (map name seasons).
Proof.
  induction seasons as [|s rest IH]; simpl.
  - tauto.
  - destruct (String.eqb (name s) nm) eqn:E.
    + apply String.eqb_eq in E. split; [discriminate | tauto].
    + apply String.eqb_neq in E.
      destruct (index_of_name rest nm) as [j|]; simpl.
      * split; [discriminate|]. intros H. exfalso. apply H. right.
        destruct IH as [_ IH]. destruct (in_dec string_dec nm (map name rest)); [assumption|].
        specialize (IH n). discriminate.
      * split; [|reflexivity]. intros _ [H|H]; [congruence|]. apply IH; auto.
Qed.

Lemma index_of_name_complete seasons nm k :
  nth_error (map name seasons) k = Some nm ->
  ~ In nm (firstn k (map name seasons)) ->
  index_of_name seasons nm = Some k.
Proof.
  revert k. induction seasons as [|s rest IH]; intros k H1 H2.
  - destruct k; discriminate.
  - destruct k as [|k]; simpl in *.
    + injection H1 as ->. now rewrite String.eqb_refl.
    + destruct (String.eqb (name s) nm) eqn:E.
      * apply String.eqb_eq in E. tauto.
      * rewrite (IH k H1); [reflexivity | tauto].
Qed.

Lemma NoDup_nth_not_in_firstn {A : Type} (l : list A) k x :
  NoDup l -> nth_error l k = Some x -> ~ In x (firstn k l).
Proof.
  intros Hnd. revert k. induction Hnd as [|y l Hy Hnd IH]; intros k H.
  - destruct k; discriminate.
  - destruct k as [|k]; simpl in *; [tauto|].
    intros [-> | Hin].
    + apply Hy. eapply nth_error_In; eauto.
    + eapply IH; eauto.
Qed.

End SeasonRegistry.

(** C7. [get_previous_season] returns the first-season sentinel [True]
    (distinct from [None]) exactly when its argument names the earliest
    known season, returns [None] exactly when the argument is absent or
    names no known season, and for a season at position [i+1] of the
    ordered list returns the season at position [i]. Seasons are looked up
    by name, as the code does; names in the list are distinct. *)
Theorem get_previous_season_cases (seasons : list Season) (season : option Season) :
  NoDup (map name seasons) ->
  PrevTrue <> PrevNone
  /\ (SeasonManager.get_previous_season seasons season = PrevTrue <->
      exists cur first rest,
        season = Some cur /\ seasons = first :: rest /\ name cur = name first)
  /\ (SeasonManager.get_previous_season seasons season = PrevNone <->
      season = None \/
      exists cur, season = Some cur /\ ~ In (name cur) (map name seasons))
  /\ (forall cur known i,
        season = Some cur ->
        nth_error seasons (S i) = Some known -> name known = name cur ->
        exists p, nth_error seasons i = Some p
                  /\ SeasonManager.get_previous_season seasons season = PrevDict p).
Proof.
  intros Hnd. split; [discriminate|].
  unfold SeasonManager.get_previous_season.
  destruct season as [cur|].
  2:{ split; [|split].
      - split; [discriminate|]. intros (c & f & r & H & _). discriminate.
      - split; auto.
      - intros c k i H. discriminate. }
  destruct (SeasonManager.index_of_name seasons (name cur)) as [k|] eqn:Ek.
  - destruct (index_of_name_sound _ _ _ Ek) as [Hk Hfirst].
    assert (Hin : In (name cur) (map name seasons)) by (eapply nth_error_In; eauto).
    destruct k as [|k].
    + split; [|split].
      * split; [intros _|reflexivity].
        destruct seasons as [|f r]; [discriminate|].
        exists cur, f, r. simpl in Hk. repeat split. congruence.
      * split; [discriminate|]. intros [H | (c & H & Hn)]; [discriminate|].
        injection H as <-. tauto.
      * intros c known i H Hn Hname. injection H as <-.
        exfalso.
        assert (H0 : nth_error (map name seasons) (S i) = Some (name cur)).
        { rewrite nth_error_map, Hn. simpl. congruence. }
        pose proof (NoDup_nth_not_in_firstn _ _ _ Hnd H0) as Hnot.
        apply Hnot. destruct seasons as [|f r]; [discriminate|].
        simpl in Hk |- *. left. congruence.
    + assert (Hlt : (k < List.length seasons)%nat).
      { assert (Hk' : (S k < List.length (map name seasons))%nat)
          by (apply nth_error_Some; congruence).
        rewrite length_map in Hk'. lia. }
      destruct (nth_error seasons k) as [p|] eqn:Ep.
      2:{ apply nth_error_None in Ep. lia. }
      split; [|split].
      * split; [discriminate|]. intros (c & f & r & H & Hs & Hname).
        injection H as <-. subst seasons. simpl in Ek.
        apply String.eqb_eq in Hname. rewrite String.eqb_sym in Hname.
        rewrite Hname in Ek. discriminate.
      * split; [discriminate|]. intros [H | (c & H & Hn)]; [discriminate|].
        injection H as <-. tauto.
      * intros c known i H Hn Hname. injection H as <-.
        assert (H0 : nth_error (map name seasons) (S i) = Some (name cur)).
        { rewrite nth_error_map, Hn. simpl. congruence. }
        pose proof (NoDup_nth_not_in_firstn _ _ _ Hnd H0) as Hnot.
        rewrite (index_of_name_complete _ _ _ H0 Hnot) in Ek.
        injection Ek as ->. exists p. split; [exact Ep|reflexivity].
  - apply index_of_name_none in Ek.
    split; [|split].
    + split; [discriminate|]. intros (c & f & r & H & Hs & Hname).
      injection H as <-. exfalso. apply Ek. subst seasons. simpl. left. congruence.
    + split; [intros _|reflexivity]. right. exists cur. split; auto.
    + intros c known i H Hn Hname. injection H as <-. exfalso. apply Ek.
      rewrite <- Hname. apply in_map. eapply nth_error_In; eauto.
Qed.

Lemma get_previous_season_cases_witness :
  NoDup (map name SeasonManager_seasons)
  /\ SeasonManager.get_previous_season SeasonManager_seasons
       (SeasonManager.get_season SeasonManager_seasons (ymd 2021 1 10))
     = PrevDict (mkSeason "2019-2020" (ymd 2019 8 16) (ymd 2020 7 19)).
Proof.
  assert (Hnd : NoDup (map name SeasonManager_seasons)).
  { simpl. repeat constructor; simpl; intuition discriminate. }
  split; [exact Hnd|].
  pose (cur := mkSeason "2020-2021" (ymd 2020 9 12) (ymd 2021 5 23)).
  destruct (get_previous_season_cases SeasonManager_seasons (Some cur) Hnd)
    as (_ & _ & _ & H).
  destruct (H cur cur 0%nat eq_refl eq_refl eq_refl) as (p & Hp & Hr).
  injection Hp as <-. exact Hr.
Defined.

(** * Lists, sums and sorting *)

Section ListFacts.

Context {A : Type}.

Lemma filter_through (p q : A -> bool) (l : list A) :
  (forall x, p x = true -> q x = true) ->
  filter p l = filter p (filter q l).
Proof.
  intros H. induction l as [|x l IH]; simpl; [reflexivity|].
  destruct (p x) eqn:Ep.
  - rewrite (H x Ep). simpl. rewrite Ep. now f_equal.
  - destruct (q x); simpl; [rewrite Ep|]; exact IH.
Qed.

Lemma filter_filter (p q : A -> bool) (l : list A) :
  filter p (filter q l) = filter (fun x => q x && p x) l.
Proof.
  induction l as [|x l IH]; simpl; [reflexivity|].
  destruct (q x); simpl; [destruct (p x)|]; now rewrite IH.
Qed.

Lemma filter_filter_comm (p q : A -> bool) (l : list A) :
  filter p (filter q l) = filter q (filter p l).
Proof.
  rewrite !filter_filter. apply filter_ext. intros x. apply andb_comm.
Qed.

Lemma len_nil_iff (l : list A) : len l = 0 <-> l = [].
Proof.
  unfold len. destruct l; simpl; split; intros H; try reflexivity; discriminate.
Qed.

Lemma len_filter_Zsum (p : A -> bool) (l : list A) :
  len (filter p l) = Zsum (fun x => if p x then 1 else 0) l.
Proof.
  unfold len, Zsum. induction l as [|x l IH]; [reflexivity|].
  cbn [filter fold_right]. destruct (p x); cbn [List.length];
    rewrite ?Nat2Z.inj_succ; lia.
Qed.

Lemma sum_Z_map_filter (f : A -> option Z) (p : A -> bool) (l : list A) :
  sum_Z (map f (filter p l)) = Zsum (fun x => if p x then nz (f x) else 0) l.
Proof.
  induction l as [|x l IH]; simpl; [reflexivity|].
  destruct (p x); simpl; [|exact IH].
  unfold sum_Z in *. simpl. rewrite IH. destruct (f x); reflexivity.
Qed.

Lemma sum_Z_map (f : A -> option Z) (l : list A) :
  sum_Z (map f l) = Zsum (fun x => nz (f x)) l.
Proof.
  induction l as [|x l IH]; simpl; [reflexivity|].
  unfold sum_Z in *. simpl. rewrite IH. destruct (f x); reflexivity.
Qed.

Lemma sum_Q_map_filter (f : A -> option Q) (p : A -> bool) (l : list A) :
  (sum_Q (map f (filter p l)) == Qsum (fun x => if p x then nq (f x) else 0) l)%Q.
Proof.
  induction l as [|x l IH]; simpl; [reflexivity|].
  destruct (p x); simpl.
  - unfold sum_Q in *. simpl. destruct (f x); simpl; rewrite IH; ring.
  - rewrite IH. ring.
Qed.

Lemma Zsum_ext (f g : A -> Z) (l : list A) :
  (forall x, f x = g x) -> Zsum f l = Zsum g l.
Proof.
  intros H. induction l as [|x l IH]; simpl; [reflexivity|]. now rewrite H, IH.
Qed.

Lemma Zsum_add (f g : A -> Z) (l : list A) :
  Zsum f l + Zsum g l = Zsum (fun x => f x + g x) l.
Proof. induction l as [|x l IH]; simpl; lia. Qed.

Lemma Zsum_sub (f g : A -> Z) (l : list A) :
  Zsum f l - Zsum g l = Zsum (fun x => f x - g x) l.
Proof. induction l as [|x l IH]; simpl; lia. Qed.

Lemma Zsum_scale (f : A -> Z) (c : Z) (l : list A) :
  Zsum f l * c = Zsum (fun x => f x * c) l.
Proof. induction l as [|x l IH]; simpl; lia. Qed.

Lemma Qsum_add (f g : A -> Q) (l : list A) :
  (Qsum f l + Qsum g l == Qsum (fun x => f x + g x) l)%Q.
Proof.
  induction l as [|x l IH]; simpl; [reflexivity|]. rewrite <- IH. ring.
Qed.

Lemma Zsum_perm (f : A -> Z) (l l' : list A) :
  Permutation l l' -> Zsum f l = Zsum f l'.
Proof. induction 1; simpl; lia. Qed.

Lemma Qsum_perm (f : A -> Q) (l l' : list A) :
  Permutation l l' -> (Qsum f l == Qsum f l')%Q.
Proof.
  induction 1; simpl.
  - reflexivity.
  - now rewrite IHPermutation.
  - ring.
  - now rewrite IHPermutation1.
Qed.

Lemma existsb_perm (p : A -> bool) (l l' : list A) :
  Permutation l l' -> existsb p l = existsb p l'.
Proof.
  induction 1; simpl.
  - reflexivity.
  - now rewrite IHPermutation.
  - destruct (p x), (p y); reflexivity.
  - congruence.
Qed.

Lemma head_nil (n : Z) : head n (@nil A) = [].
Proof. unfold head. destruct (0 <=? n); apply firstn_nil. Qed.

Lemma head_all (n : Z) (l : list A) : len l <= n -> head n l = l.
Proof.
  unfold head, len. intros H.
  destruct (0 <=? n) eqn:E; [|lia].
  apply firstn_all2. lia.
Qed.

End ListFacts.

Lemma insert_desc_perm m l : Permutation (insert_desc m l) (m :: l).
Proof.
  induction l as [|x l IH]; simpl; [reflexivity|].
  destruct (date_before (match_date m) (match_date x)); [reflexivity|].
  rewrite IH. apply perm_swap.
Qed.

Lemma sort_values_desc_perm df : Permutation (sort_values_desc df) df.
Proof.
  induction df as [|m df IH]; simpl; [reflexivity|].
  unfold sort_values_desc in *. simpl.
  rewrite insert_desc_perm. now apply perm_skip.
Qed.

Lemma len_perm {A : Type} (l l' : list A) : Permutation l l' -> len l = len l'.
Proof. intros H. unfold len. now rewrite (Permutation_length H). Qed.

(** * Aggregates as sums of per-match contributions *)

Section Aggregates.

Import StatsCalculator.
Variable team_id : Z.

Lemma scored_as_sum (l : DataFrame) :
  sum_Z (map home_goals (home_of team_id l))
  + sum_Z (map away_goals (away_of team_id l))
  = Zsum (goals_for team_id) l.
Proof.
  unfold home_of, away_of. rewrite !sum_Z_map_filter, Zsum_add.
  apply Zsum_ext. reflexivity.
Qed.

Lemma conceded_as_sum (l : DataFrame) :
  sum_Z (map away_goals (home_of team_id l))
  + sum_Z (map home_goals (away_of team_id l))
  = Zsum (goals_against team_id) l.
Proof.
  unfold home_of, away_of. rewrite !sum_Z_map_filter, Zsum_add.
  apply Zsum_ext. reflexivity.
Qed.

Lemma rival_ppm_as_sum (l : DataFrame) :
  (sum_Q (map PPM_A (home_of team_id l)) + sum_Q (map PPM_H (away_of team_id l))
   == Qsum (rival_ppm team_id) l)%Q.
Proof.
  unfold home_of, away_of. rewrite !sum_Q_map_filter, Qsum_add. reflexivity.
Qed.

Lemma form_points_as_sum (l : DataFrame) :
  (len (filter (fun m => (home_team_id m =? team_id)
                         && cell_gt (home_goals m) (away_goals m)) l)
   + len (filter (fun m => (away_team_id m =? team_id)
                           && cell_gt (away_goals m) (home_goals m)) l))
  * WIN_POINTS
  + len (filter (fun m => cell_eq (home_goals m) (away_goals m)) l) * DRAW_POINTS
  = Zsum (form_points team_id) l.
Proof.
  rewrite !len_filter_Zsum, Zsum_add, !Zsum_scale, Zsum_add.
  apply Zsum_ext. reflexivity.
Qed.

Lemma season_points_as_sum (l : DataFrame) :
  SeasonCalculator.points_from_goals team_id l = Zsum (season_points team_id) l.
Proof.
  unfold SeasonCalculator.points_from_goals, home_of, away_of.
  rewrite !filter_filter, !len_filter_Zsum, !Zsum_add, !Zsum_scale, Zsum_add.
  apply Zsum_ext. reflexivity.
Qed.

Lemma rm_points_as_sum (l : DataFrame) :
  len (filter (fun m => result_is (real_result m) 1) l) * WIN_POINTS
  + len (filter (fun m => result_is (real_result m) (1 # 2)) l) * DRAW_POINTS
  = Zsum rm_points l.
Proof.
  rewrite !len_filter_Zsum, !Zsum_scale, Zsum_add.
  apply Zsum_ext. reflexivity.
Qed.

Lemma points_from_real_result_as_sum (l : DataFrame) :
  SeasonCalculator.points_from_real_result l = Zsum rm_points l.
Proof. apply rm_points_as_sum. Qed.

End Aggregates.

(** * Rolling form *)

Section RollingForm.

Import StatsCalculator.

Lemma last_matches_all (prior : DataFrame) (n : Z) :
  len prior <= n -> head n (sort_values_desc prior) = sort_values_desc prior.
Proof.
  intros H. apply head_all.
  now rewrite (len_perm _ _ (sort_values_desc_perm prior)).
Qed.

Lemma check_NaN_perm (l l' : DataFrame) :
  Permutation l l' ->
  check_NaN_column_in_RM_matches l = check_NaN_column_in_RM_matches l'.
Proof.
  intros H. unfold check_NaN_column_in_RM_matches. now rewrite (existsb_perm _ _ _ H).
Qed.

End RollingForm.

(** The rolling form in terms of the frame the calculator filters: absent
    on an empty frame, and with fewer than [n] rows either absent (a NaN in
    an inspected column) or the means over all the rows. *)
Lemma rolling_form_on_filtered_frame
    (rm_matches opp_matches : DataFrame) (mdate team_id n : Z) :
  let prior :=
    if team_id =? 1 then StatsCalculator.rm_prior rm_matches mdate
    else StatsCalculator.opp_prior opp_matches mdate team_id in
  let r := StatsCalculator.calculate_last_5_stats rm_matches opp_matches mdate team_id n in
  let mean f := true_div (inject_Z (Zsum f prior)) (len prior) in
  (prior = [] ->
   r = (if team_id =? 1 then PyBool false else PyNaN)
   /\ is_absence r = true /\ is_dict r = false)
  /\ (1 <= len prior < n -> existsb row_has_nan prior = true -> is_absence r = true)
  /\ (1 <= len prior < n -> existsb row_has_nan prior = false ->
      exists rivals,
        (rivals == true_div (Qsum (rival_ppm team_id) prior) (len prior))%Q
        /\ r = if team_id =? 1 then
                 PyDict
                   [ ("RM_G_SCO_L5", PyFloat (mean (fun m => nz (goals m))));
                     ("RM_G_CON_L5", PyFloat (mean (goals_against 1)));
                     ("RM_GDIF_L5",
                      PyFloat (mean (fun m => nz (goals m) - goals_against 1 m)));
                     ("RM_PPM_L5", PyFloat (mean rm_points));
                     ("RM_OPP_PPM_L5", PyFloat rivals) ]%string
               else
                 PyDict
                   [ ("OP_G_SCO_L5", PyFloat (mean (goals_for team_id)));
                     ("OP_G_CON_L5", PyFloat (mean (goals_against team_id)));
                     ("OP_GDIF_L5",
                      PyFloat (mean (fun m => goals_for team_id m - goals_against team_id m)));
                     ("OP_PPM_L5", PyFloat (mean (form_points team_id)));
                     ("OP_OPP_PPM_L5", PyFloat rivals) ]%string).
Proof.
  intros prior r mean.
  pose proof (sort_values_desc_perm prior) as Hperm.
  split; [|split].
  - intros Hnil. subst r. unfold StatsCalculator.calculate_last_5_stats,
      StatsCalculator._calculate_real_madrid_last_5,
      StatsCalculator._calculate_opponent_last_5.
    subst prior. destruct (team_id =? 1); rewrite Hnil; simpl;
      rewrite head_nil; simpl; auto.
  - intros Hk Hnan. subst r. unfold StatsCalculator.calculate_last_5_stats,
      StatsCalculator._calculate_real_madrid_last_5,
      StatsCalculator._calculate_opponent_last_5.
    subst prior. destruct (team_id =? 1).
    + rewrite last_matches_all by lia.
      rewrite (len_perm _ _ Hperm), (check_NaN_perm _ _ Hperm).
      unfold check_NaN_column_in_RM_matches. rewrite Hnan.
      destruct (len _ =? 0); reflexivity.
    + rewrite last_matches_all by lia.
      rewrite (len_perm _ _ Hperm), (check_NaN_perm _ _ Hperm).
      unfold check_NaN_column_in_RM_matches. rewrite Hnan.
      destruct (len _ =? 0); reflexivity.
  - intros Hk Hnan. subst r mean. unfold StatsCalculator.calculate_last_5_stats,
      StatsCalculator._calculate_real_madrid_last_5,
      StatsCalculator._calculate_opponent_last_5.
    assert (Hz : (len prior =? 0) = false) by (apply Z.eqb_neq; lia).
    subst prior. destruct (team_id =? 1) eqn:Et.
    + apply Z.eqb_eq in Et. subst team_id.
      rewrite last_matches_all by lia.
      rewrite (len_perm _ _ Hperm), (check_NaN_perm _ _ Hperm), Hz.
      unfold check_NaN_column_in_RM_matches. rewrite Hnan. cbn [negb].
      eexists. split; [|].
      2:{ rewrite conceded_as_sum, rm_points_as_sum, sum_Z_map, Zsum_sub.
          rewrite !(Zsum_perm _ _ _ Hperm). reflexivity. }
      unfold true_div. rewrite rival_ppm_as_sum, (Qsum_perm _ _ _ Hperm). reflexivity.
    + rewrite last_matches_all by lia.
      rewrite (len_perm _ _ Hperm), (check_NaN_perm _ _ Hperm), Hz.
      unfold check_NaN_column_in_RM_matches. rewrite Hnan. cbn [negb].
      eexists. split; [|].
      2:{ rewrite scored_as_sum, conceded_as_sum, form_points_as_sum, Zsum_sub.
          rewrite !(Zsum_perm _ _ _ Hperm). reflexivity. }
      unfold true_div. rewrite rival_ppm_as_sum, (Qsum_perm _ _ _ Hperm). reflexivity.
Qed.

Lemma matches_before_filtered (rm_matches opp_matches : DataFrame) (mdate team_id : Z) :
  matches_before team_id mdate rm_matches opp_matches
  = if team_id =? 1 then StatsCalculator.rm_prior rm_matches mdate
    else StatsCalculator.opp_prior opp_matches mdate team_id.
Proof.
  unfold matches_before, StatsCalculator.rm_prior, StatsCalculator.opp_prior.
  destruct (team_id =? 1); apply filter_ext; intros m; reflexivity.
Qed.

Lemma checked_cell_missing_nan (m : Match) : row_has_nan m = checked_cell_missing m.
Proof.
  unfold row_has_nan, checked_cell_missing, isnull.
  destruct (match_date m), (home_goals m), (away_goals m); reflexivity.
Qed.

Lemma existsb_checked_cell_missing (l : DataFrame) :
  existsb row_has_nan l = existsb checked_cell_missing l.
Proof.
  induction l as [|m l IH]; simpl; [reflexivity|].
  now rewrite checked_cell_missing_nan, IH.
Qed.

Lemma match_points_form (team_id : Z) (m : Match) :
  form_points team_id m = match_points team_id m.
Proof.
  unfold form_points, match_points, cell_gt, cell_eq, more_goals, same_goals,
    WIN_POINTS, DRAW_POINTS.
  destruct (home_team_id m =? team_id), (away_team_id m =? team_id),
    (home_goals m) as [x|], (away_goals m) as [y|]; simpl; try reflexivity;
    destruct (Z.ltb_spec y x), (Z.ltb_spec x y), (Z.eqb_spec x y);
    simpl; try reflexivity; lia.
Qed.

Lemma rm_match_points_form (m : Match) : rm_points m = rm_match_points m.
Proof.
  unfold rm_points, rm_match_points, result_is, WIN_POINTS, DRAW_POINTS.
  destruct (real_result m) as [v|]; [|reflexivity].
  destruct (Qeq_bool v 1) eqn:E1; destruct (Qeq_bool v (1 # 2)) eqn:E2;
    try reflexivity.
  apply Qeq_bool_iff in E1. apply Qeq_bool_iff in E2.
  rewrite E1 in E2. discriminate E2.
Qed.

Lemma mean_over_ext (f g : Match -> Z) (l : DataFrame) :
  (forall m, f m = g m) -> mean_over f l = mean_over g l.
Proof. intros H. unfold mean_over. now rewrite (Zsum_ext f g l H). Qed.

(** C8.  Take the matches of the team dated strictly before the date: the
    rows of the Real Madrid table for Real Madrid, the rows of the
    all-matches table where the team is a side for another team.  When
    there is none, the rolling form returns an absence marker ([False] for
    Real Madrid, [np.nan] otherwise) and never a dict.  When there are [k]
    of them, [1 <= k < n], it returns an absence marker if a cell of an
    inspected column is missing in one of those rows, and otherwise the
    dict whose five entries are the sums over exactly those [k] matches
    divided by [k]. *)
Theorem last_5_stats_absent_or_means
    (rm_matches opp_matches : DataFrame) (mdate team_id n : Z) :
  let prior := matches_before team_id mdate rm_matches opp_matches in
  let k := Z.of_nat (List.length prior) in
  let r := StatsCalculator.calculate_last_5_stats rm_matches opp_matches mdate team_id n in
  (prior = [] ->
   r = (if team_id =? 1 then PyBool false else PyNaN)
   /\ is_absence r = true /\ is_dict r = false)
  /\ (1 <= k < n -> existsb checked_cell_missing prior = true ->
      is_absence r = true /\ is_dict r = false)
  /\ (1 <= k < n -> existsb checked_cell_missing prior = false ->
      exists rivals,
        (rivals == qmean_over (rival_ppm team_id) prior)%Q
        /\ r = if team_id =? 1 then
                 PyDict
                   [ ("RM_G_SCO_L5", PyFloat (mean_over (fun m => nz (goals m)) prior));
                     ("RM_G_CON_L5", PyFloat (mean_over (goals_against 1) prior));
                     ("RM_GDIF_L5",
                      PyFloat (mean_over (fun m => nz (goals m) - goals_against 1 m) prior));
                     ("RM_PPM_L5", PyFloat (mean_over rm_match_points prior));
                     ("RM_OPP_PPM_L5", PyFloat rivals) ]%string
               else
                 PyDict
                   [ ("OP_G_SCO_L5", PyFloat (mean_over (goals_for team_id) prior));
                     ("OP_G_CON_L5", PyFloat (mean_over (goals_against team_id) prior));
                     ("OP_GDIF_L5",
                      PyFloat (mean_over
                                 (fun m => goals_for team_id m - goals_against team_id m)
                                 prior));
                     ("OP_PPM_L5", PyFloat (mean_over (match_points team_id) prior));
                     ("OP_OPP_PPM_L5", PyFloat rivals) ]%string).
Proof.
  intros prior k r. subst k r prior.
  rewrite matches_before_filtered, <- existsb_checked_cell_missing.
  rewrite <- (mean_over_ext _ _ _ rm_match_points_form),
          <- (mean_over_ext _ _ _ (match_points_form team_id)).
  destruct (rolling_form_on_filtered_frame rm_matches opp_matches mdate team_id n)
    as (H1 & H2 & H3).
  split; [exact H1|]. split.
  - intros Hk Hnan. specialize (H2 Hk Hnan). split; [exact H2|].
    destruct (StatsCalculator.calculate_last_5_stats _ _ _ _ _) as [| [] | | | |];
      try discriminate; reflexivity.
  - exact H3.
Qed.

Lemma last_5_stats_absent_or_means_witness :
  (exists rivals,
     (rivals == 2 # 2)%Q
     /\ StatsCalculator.calculate_last_5_stats ex_rm_two_seasons [] (ymd 2021 1 10) 1 5
        = PyDict [ ("RM_G_SCO_L5", PyFloat (2 # 2)); ("RM_G_CON_L5", PyFloat (1 # 2));
                   ("RM_GDIF_L5", PyFloat (1 # 2)); ("RM_PPM_L5", PyFloat (3 # 2));
                   ("RM_OPP_PPM_L5", PyFloat rivals) ]%string)
  /\ (exists rivals,
        (rivals == 3 # 2)%Q
        /\ StatsCalculator.calculate_last_5_stats [] ex_form_table (ymd 2021 3 1) 2 5
           = PyDict [ ("OP_G_SCO_L5", PyFloat (3 # 2)); ("OP_G_CON_L5", PyFloat (1 # 2));
                      ("OP_GDIF_L5", PyFloat (2 # 2)); ("OP_PPM_L5", PyFloat (4 # 2));
                      ("OP_OPP_PPM_L5", PyFloat rivals) ]%string)
  /\ (is_absence
        (StatsCalculator.calculate_last_5_stats ex_rm_two_seasons [] (ymd 2020 1 1) 1 5)
      = true
      /\ is_absence
           (StatsCalculator.calculate_last_5_stats [] ex_form_table (ymd 2021 1 1) 2 5)
         = true).
Proof.
  split; [|split].
  - refine (proj2 (proj2 (last_5_stats_absent_or_means
                            ex_rm_two_seasons [] (ymd 2021 1 10) 1 5)) _ _).
    + vm_compute. split; [discriminate | reflexivity].
    + reflexivity.
  - refine (proj2 (proj2 (last_5_stats_absent_or_means
                            [] ex_form_table (ymd 2021 3 1) 2 5)) _ _).
    + vm_compute. split; [discriminate | reflexivity].
    + reflexivity.
  - split.
    + refine (proj1 (proj2 (proj1 (last_5_stats_absent_or_means
                                     ex_rm_two_seasons [] (ymd 2020 1 1) 1 5) _))).
      reflexivity.
    + refine (proj1 (proj2 (proj1 (last_5_stats_absent_or_means
                                     [] ex_form_table (ymd 2021 1 1) 2 5) _))).
      reflexivity.
Defined.

(** * No look-ahead *)

Section NoLookAhead.

Variables (D d : Z).
Hypothesis d_le_D : d <= D.

Lemma date_lt_mono (c : option Z) : date_lt c d = true -> date_lt c D = true.
Proof.
  destruct c as [v|]; simpl; [|discriminate].
  rewrite !Z.ltb_lt. lia.
Qed.

Lemma filter_agree (p : Match -> bool) (t1 t2 : DataFrame) :
  (forall m, p m = true -> date_lt (match_date m) d = true) ->
  rows_before D t1 = rows_before D t2 ->
  filter p t1 = filter p t2.
Proof.
  intros Hp H.
  rewrite (filter_through p (fun m => date_lt (match_date m) D) t1),
          (filter_through p (fun m => date_lt (match_date m) D) t2);
    try (intros m Hm; apply date_lt_mono; auto).
  unfold rows_before in H. now rewrite H.
Qed.

Variables (t1 t2 : DataFrame).
Hypothesis agree : rows_before D t1 = rows_before D t2.

Lemma rm_prior_agree :
  StatsCalculator.rm_prior t1 d = StatsCalculator.rm_prior t2 d.
Proof. apply filter_agree; auto. Qed.

Lemma opp_prior_agree team_id :
  StatsCalculator.opp_prior t1 d team_id = StatsCalculator.opp_prior t2 d team_id.
Proof.
  apply filter_agree; auto. intros m H. now apply andb_prop in H.
Qed.

Lemma season_window_agree start (p : Match -> bool) :
  SeasonCalculator.season_window start d (filter p t1)
  = SeasonCalculator.season_window start d (filter p t2).
Proof.
  unfold SeasonCalculator.season_window. rewrite !filter_filter.
  apply filter_agree; auto. intros m H.
  apply andb_prop in H. destruct H as [_ H]. apply andb_prop in H. tauto.
Qed.

Lemma opp_tier_window_agree prev (p : Match -> bool) :
  SeasonCalculator.opp_tier_window prev d (filter p t1)
  = SeasonCalculator.opp_tier_window prev d (filter p t2).
Proof.
  destruct prev as [| |s]; simpl; [reflexivity| |]; f_equal;
    rewrite !filter_filter; apply filter_agree; auto; intros m H;
    apply andb_prop in H; destruct H as [_ H]; apply andb_prop in H; tauto.
Qed.

Lemma rm_tier_window_agree prev :
  SeasonCalculator.rm_tier_window prev d t1 = SeasonCalculator.rm_tier_window prev d t2.
Proof.
  apply filter_agree; auto. intros m H. apply andb_prop in H. tauto.
Qed.

Lemma get_h2h_matches_agree opp_id last_n :
  H2H.get_h2h_matches t1 opp_id d last_n = H2H.get_h2h_matches t2 opp_id d last_n.
Proof.
  unfold H2H.get_h2h_matches.
  rewrite (filter_agree _ t1 t2); auto.
  intros m H. apply andb_prop in H. tauto.
Qed.

End NoLookAhead.

Lemma get_all_opp_matches_eq all_matches team_id :
  SeasonCalculator.get_all_opp_matches all_matches team_id = None
  \/ SeasonCalculator.get_all_opp_matches all_matches team_id
     = Some (filter (plays team_id) all_matches).
Proof.
  unfold SeasonCalculator.get_all_opp_matches.
  destruct (filter (plays team_id) all_matches); auto.
Qed.

Lemma get_all_opp_matches_some all_matches team_id tm :
  SeasonCalculator.get_all_opp_matches all_matches team_id = Some tm ->
  tm = filter (plays team_id) all_matches.
Proof.
  intros H. destruct (get_all_opp_matches_eq all_matches team_id) as [E|E];
    rewrite E in H; [discriminate | congruence].
Qed.

(** C1, as amended.  Take two versions of the input tables that hold the
    same rows dated strictly before [D].  Every feature computed as of a
    date [d <= D] is then the same on both: rolling form, season PPM, tier
    statistics and the three head-to-head features.  For a team other than
    Real Madrid the season PPM and tier statistics first ask whether the
    team has any row at all in the all-matches table, whatever its date;
    the answer to that question is assumed the same on both versions. *)
Theorem no_look_ahead_given_team_presence
    (D d : Z) (rm1 rm2 opp1 opp2 all1 all2 : DataFrame) (seasons : list Season)
    (team_id n : Z) (min_ppm : Q) (max_ppm : option Q) (opp_id : Z) (last_n : option Z) :
  d <= D ->
  rows_before D rm1 = rows_before D rm2 ->
  rows_before D opp1 = rows_before D opp2 ->
  rows_before D all1 = rows_before D all2 ->
  (SeasonCalculator.get_all_opp_matches all1 team_id = None <->
   SeasonCalculator.get_all_opp_matches all2 team_id = None) ->
  StatsCalculator.calculate_last_5_stats rm1 opp1 d team_id n
  = StatsCalculator.calculate_last_5_stats rm2 opp2 d team_id n
  /\ SeasonCalculator.calculate_team_points_per_match_season rm1 seasons all1 team_id d
     = SeasonCalculator.calculate_team_points_per_match_season rm2 seasons all2 team_id d
  /\ SeasonCalculator.calculate_team_stats_against_tier
       rm1 seasons all1 team_id d min_ppm max_ppm
     = SeasonCalculator.calculate_team_stats_against_tier
         rm2 seasons all2 team_id d min_ppm max_ppm
  /\ H2H.calculate_h2h_stats rm1 opp_id d last_n = H2H.calculate_h2h_stats rm2 opp_id d last_n
  /\ H2H.calculate_h2h_overall_ppm rm1 opp_id d = H2H.calculate_h2h_overall_ppm rm2 opp_id d
  /\ H2H.is_playing_before rm1 d opp_id = H2H.is_playing_before rm2 d opp_id.
Proof.
  intros Hd Hrm Hopp Hall Hknown.
  assert (Htm : SeasonCalculator.tier_matches rm1 seasons all1 team_id d min_ppm max_ppm
                = SeasonCalculator.tier_matches rm2 seasons all2 team_id d min_ppm max_ppm).
  { unfold SeasonCalculator.tier_matches.
    destruct (negb (team_id =? 1)).
    - destruct (SeasonCalculator.get_all_opp_matches all1 team_id) as [tm1|] eqn:E1;
        destruct (SeasonCalculator.get_all_opp_matches all2 team_id) as [tm2|] eqn:E2.
      + apply get_all_opp_matches_some in E1, E2. subst tm1 tm2.
        now rewrite (opp_tier_window_agree D d Hd all1 all2 Hall).
      + destruct Hknown as [_ H]. specialize (H eq_refl). discriminate.
      + destruct Hknown as [H _]. specialize (H eq_refl). discriminate.
      + reflexivity.
    - destruct (SeasonManager.get_previous_season _ _); try reflexivity.
      now rewrite (rm_tier_window_agree D d Hd rm1 rm2 Hrm). }
  repeat split.
  - unfold StatsCalculator.calculate_last_5_stats,
      StatsCalculator._calculate_real_madrid_last_5,
      StatsCalculator._calculate_opponent_last_5.
    now rewrite (rm_prior_agree D d Hd rm1 rm2 Hrm),
                (opp_prior_agree D d Hd opp1 opp2 Hopp).
  - unfold SeasonCalculator.calculate_team_points_per_match_season.
    destruct (negb (team_id =? 1)).
    + destruct (SeasonCalculator.get_all_opp_matches all1 team_id) as [tm1|] eqn:E1;
        destruct (SeasonCalculator.get_all_opp_matches all2 team_id) as [tm2|] eqn:E2.
      * apply get_all_opp_matches_some in E1, E2. subst tm1 tm2.
        destruct (SeasonManager.get_previous_season _ _); try reflexivity.
        now rewrite (season_window_agree D d Hd all1 all2 Hall).
      * destruct Hknown as [_ H]. specialize (H eq_refl). discriminate.
      * destruct Hknown as [H _]. specialize (H eq_refl). discriminate.
      * reflexivity.
    + destruct (SeasonManager.get_previous_season _ _); try reflexivity.
      pose proof (season_window_agree D d Hd rm1 rm2 Hrm (start_date s) (fun _ => true)) as H.
      assert (Hid : forall l : DataFrame, filter (fun _ => true) l = l).
      { induction l; simpl; congruence. }
      rewrite !Hid in H. now rewrite H.
  - unfold SeasonCalculator.calculate_team_stats_against_tier. now rewrite Htm.
  - unfold H2H.calculate_h2h_stats.
    now rewrite (get_h2h_matches_agree D d Hd rm1 rm2 Hrm).
  - unfold H2H.calculate_h2h_overall_ppm.
    now rewrite (get_h2h_matches_agree D d Hd rm1 rm2 Hrm).
  - unfold H2H.is_playing_before.
    now rewrite (get_h2h_matches_agree D d Hd rm1 rm2 Hrm).
Qed.

Lemma no_look_ahead_given_team_presence_witness :
  let D := ymd 2021 3 1 in
  let t1 := ex_form_table in
  let t2 := ex_form_table_changed in
  t1 <> t2
  /\ rows_before D t1 = rows_before D t2
  /\ StatsCalculator.calculate_last_5_stats t1 t1 D 2 5
     = StatsCalculator.calculate_last_5_stats t2 t2 D 2 5
  /\ SeasonCalculator.calculate_team_points_per_match_season t1 SeasonManager_seasons t1 2 D
     = SeasonCalculator.calculate_team_points_per_match_season t2 SeasonManager_seasons t2 2 D
  /\ SeasonCalculator.calculate_team_stats_against_tier
       t1 SeasonManager_seasons t1 2 D TOP_TIER_MIN_PPM None
     = SeasonCalculator.calculate_team_stats_against_tier
         t2 SeasonManager_seasons t2 2 D TOP_TIER_MIN_PPM None
  /\ H2H.calculate_h2h_stats t1 2 D (Some 5) = H2H.calculate_h2h_stats t2 2 D (Some 5)
  /\ H2H.calculate_h2h_overall_ppm t1 2 D = H2H.calculate_h2h_overall_ppm t2 2 D
  /\ H2H.is_playing_before t1 D 2 = H2H.is_playing_before t2 D 2.
Proof.
  intros D t1 t2.
  split; [discriminate|]. split; [reflexivity|].
  apply (no_look_ahead_given_team_presence
           D D t1 t2 t1 t2 t1 t2 SeasonManager_seasons 2 5 TOP_TIER_MIN_PPM None 2 (Some 5)).
  - lia.
  - reflexivity.
  - reflexivity.
  - reflexivity.
  - split; intros H; vm_compute in H; discriminate.
Defined.

(** C1, as stated, fails.  The two tables hold the same (no) rows before
    2019-09-01 and differ only in the home team of a match played a month
    later; the season PPM of team 2 as of 2019-09-01 is 0 on the first and
    [None] on the second. *)
Lemma look_ahead_through_unknown_team_guard :
  let D := ymd 2019 9 1 in
  rows_before D ex_future_match = rows_before D ex_future_match_changed
  /\ SeasonCalculator.calculate_team_points_per_match_season
       [] SeasonManager_seasons ex_future_match 2 D = Returned (PyInt 0)
  /\ SeasonCalculator.calculate_team_points_per_match_season
       [] SeasonManager_seasons ex_future_match_changed 2 D = Returned PyNone
  /\ SeasonCalculator.calculate_team_points_per_match_season
       [] SeasonManager_seasons ex_future_match 2 D
     <> SeasonCalculator.calculate_team_points_per_match_season
          [] SeasonManager_seasons ex_future_match_changed 2 D.
Proof.
  repeat split; try reflexivity. vm_compute. discriminate.
Qed.

(** * Season points per match *)

Lemma season_window_In start mdate df m :
  In m (SeasonCalculator.season_window start mdate df) <->
  In m df /\ exists v, match_date m = Some v /\ start <= v < mdate.
Proof.
  unfold SeasonCalculator.season_window. rewrite filter_In.
  split; intros [H1 H2]; split; auto.
  - apply andb_prop in H2. destruct H2 as [Ha Hb].
    destruct (match_date m) as [v|]; simpl in *; [|discriminate].
    exists v. split; [reflexivity|]. apply Z.leb_le in Ha. apply Z.ltb_lt in Hb. lia.
  - destruct H2 as (v & -> & Hv). simpl.
    apply andb_true_intro. split; [apply Z.leb_le | apply Z.ltb_lt]; lia.
Qed.

(** C4, as amended.  Beyond the first season, with at least one match in
    the window, the season PPM is the sum of the points over the window
    divided by its size, where the window holds exactly the rows of the
    team dated from the start of the previous season (included) up to the
    as-of date (excluded); it runs on into the current season. *)
Theorem season_ppm_mean_since_previous_start
    (rm_matches : DataFrame) (seasons : list Season) (all_matches : DataFrame)
    (team_id mdate : Z) (prev : Season) :
  let table := if team_id =? 1 then rm_matches else filter (plays team_id) all_matches in
  let w := SeasonCalculator.season_window (start_date prev) mdate table in
  let points := if team_id =? 1 then rm_points else season_points team_id in
  SeasonManager.get_previous_season seasons (SeasonManager.get_season seasons mdate)
  = PrevDict prev ->
  w <> [] ->
  SeasonCalculator.calculate_team_points_per_match_season
    rm_matches seasons all_matches team_id mdate
  = Returned (PyFloat (true_div (inject_Z (Zsum points w)) (len w)))
  /\ forall m, In m w <->
               In m table /\ exists v, match_date m = Some v /\ start_date prev <= v < mdate.
Proof.
  intros table w points Hprev Hw.
  split; [|intros m; apply season_window_In].
  assert (Hlen : (len w =? 0) = false).
  { apply Z.eqb_neq. intros H. apply len_nil_iff in H. contradiction. }
  unfold SeasonCalculator.calculate_team_points_per_match_season.
  rewrite Hprev. subst w points table.
  destruct (team_id =? 1) eqn:Et; cbn [negb].
  - rewrite Hlen. now rewrite points_from_real_result_as_sum.
  - destruct (get_all_opp_matches_eq all_matches team_id) as [E|E].
    + exfalso. apply Hw. unfold SeasonCalculator.get_all_opp_matches in E.
      destruct (filter (plays team_id) all_matches); [reflexivity | discriminate].
    + rewrite E, Hlen. now rewrite season_points_as_sum.
Qed.

Lemma season_ppm_mean_since_previous_start_witness :
  SeasonCalculator.calculate_team_points_per_match_season
    ex_rm_two_seasons SeasonManager_seasons [] 1 (ymd 2021 1 10)
  = Returned (PyFloat (3 # 2)).
Proof.
  refine (proj1 (season_ppm_mean_since_previous_start
                   ex_rm_two_seasons SeasonManager_seasons [] 1 (ymd 2021 1 10)
                   season_2019_2020 _ _)).
  - reflexivity.
  - discriminate.
Defined.

(** C4, as stated, fails.  As of 2021-01-10 the previous season is
    2019-2020, which ended on 2020-07-19.  Real Madrid won on 2020-02-01
    and lost on 2020-10-01: over the matches of the previous season the
    mean is 3, and the code returns 3/2 because the defeat of the current
    season is in its window. *)
Lemma season_ppm_counts_current_season :
  let d := ymd 2021 1 10 in
  let in_previous := previous_season_only season_2019_2020 d ex_rm_two_seasons in
  SeasonManager.get_previous_season SeasonManager_seasons
    (SeasonManager.get_season SeasonManager_seasons d) = PrevDict season_2019_2020
  /\ List.length in_previous = 1%nat
  /\ (true_div (inject_Z (Zsum rm_points in_previous)) (len in_previous) == 3)%Q
  /\ exists q,
       SeasonCalculator.calculate_team_points_per_match_season
         ex_rm_two_seasons SeasonManager_seasons [] 1 d = Returned (PyFloat q)
       /\ (q == 3 # 2)%Q /\ ~ (q == 3)%Q.
Proof.
  repeat split; try reflexivity.
  eexists. repeat split; try reflexivity. vm_compute. discriminate.
Qed.

Lemma first_season_previous_is_sentinel (first : Season) (rest : list Season) (mdate : Z) :
  start_date first <= mdate <= end_date first ->
  SeasonManager.get_previous_season (first :: rest)
    (SeasonManager.get_season (first :: rest) mdate) = PrevTrue.
Proof.
  intros [H1 H2]. unfold SeasonManager.get_season. simpl.
  apply Z.leb_le in H1. apply Z.leb_le in H2. rewrite H1, H2. simpl.
  now rewrite String.eqb_refl.
Qed.

(** C5, as amended.  For a date inside the earliest season the season PPM
    is exactly the integer 0, for Real Madrid and for every other team
    that has at least one row in the all-matches table. *)
Theorem season_ppm_first_season_zero
    (rm_matches : DataFrame) (first : Season) (rest : list Season)
    (all_matches : DataFrame) (team_id mdate : Z) :
  start_date first <= mdate <= end_date first ->
  team_id = 1 \/ (exists m, In m all_matches /\ plays team_id m = true) ->
  SeasonCalculator.calculate_team_points_per_match_season
    rm_matches (first :: rest) all_matches team_id mdate
  = Returned (PyInt 0).
Proof.
  intros Hd Hteam.
  unfold SeasonCalculator.calculate_team_points_per_match_season.
  rewrite (first_season_previous_is_sentinel first rest mdate Hd).
  destruct (team_id =? 1) eqn:Et; cbn [negb]; [reflexivity|].
  destruct Hteam as [-> | (m & Hin & Hp)]; [discriminate|].
  unfold SeasonCalculator.get_all_opp_matches.
  destruct (filter (plays team_id) all_matches) eqn:Ef; [|reflexivity].
  assert (Hm : In m (filter (plays team_id) all_matches)) by (apply filter_In; auto).
  rewrite Ef in Hm. destruct Hm.
Qed.

Lemma season_ppm_first_season_zero_witness :
  SeasonCalculator.calculate_team_points_per_match_season
    [] SeasonManager_seasons ex_future_match 2 (ymd 2019 9 1)
  = Returned (PyInt 0).
Proof.
  apply (season_ppm_first_season_zero [] season_2019_2020 (tl SeasonManager_seasons)
           ex_future_match 2 (ymd 2019 9 1)).
  - vm_compute. split; discriminate.
  - right. eexists. split; [left; reflexivity | reflexivity].
Defined.

(** C5, as stated, fails.  2019-09-01 lies in the earliest season; for a
    team with no row in the all-matches table the other-team branch
    returns [None] before it looks at the season. *)
Lemma season_ppm_first_season_unknown_team :
  SeasonManager.get_previous_season SeasonManager_seasons
    (SeasonManager.get_season SeasonManager_seasons (ymd 2019 9 1)) = PrevTrue
  /\ SeasonCalculator.calculate_team_points_per_match_season
       [] SeasonManager_seasons [] 99 (ymd 2019 9 1) = Returned PyNone
  /\ Returned PyNone <> Returned (PyInt 0)
  /\ is_absence PyNone = true.
Proof.
  repeat split; try reflexivity. discriminate.
Qed.

(** C6, as amended.  For Real Madrid the season PPM always returns a
    value: the integer 0 when no season holds the date, and [np.nan] when
    the window from the start of the previous season is empty.  For
    another team it returns [None] when the team has no row in the
    all-matches table, and [np.nan] when the team has rows, a previous
    season is found and the window is empty. *)
Theorem season_ppm_returns_and_absences
    (rm_matches : DataFrame) (seasons : list Season) (all_matches : DataFrame)
    (team_id mdate : Z) :
  let r := SeasonCalculator.calculate_team_points_per_match_season
             rm_matches seasons all_matches team_id mdate in
  let table := if team_id =? 1 then rm_matches else filter (plays team_id) all_matches in
  (team_id = 1 -> exists v, r = Returned v)
  /\ (team_id = 1 -> SeasonManager.get_season seasons mdate = None ->
      r = Returned (PyInt 0))
  /\ (forall prev,
        SeasonManager.get_previous_season seasons (SeasonManager.get_season seasons mdate)
        = PrevDict prev ->
        table <> [] ->
        SeasonCalculator.season_window (start_date prev) mdate table = [] ->
        r = Returned PyNaN)
  /\ (team_id <> 1 -> filter (plays team_id) all_matches = [] -> r = Returned PyNone).
Proof.
  intros r table. subst r table.
  unfold SeasonCalculator.calculate_team_points_per_match_season.
  repeat split.
  - intros ->. cbn [Z.eqb Pos.eqb negb].
    destruct (SeasonManager.get_previous_season _ _); eauto.
    destruct (len _ =? 0); eauto.
  - intros -> Hs. rewrite Hs. reflexivity.
  - intros prev Hprev Htable Hw. rewrite Hprev.
    destruct (team_id =? 1); cbn [negb].
    + now rewrite Hw.
    + destruct (get_all_opp_matches_eq all_matches team_id) as [E|E].
      * exfalso. apply Htable. unfold SeasonCalculator.get_all_opp_matches in E.
        destruct (filter (plays team_id) all_matches); [reflexivity | discriminate].
      * rewrite E. now rewrite Hw.
  - intros Ht Hf. apply Z.eqb_neq in Ht. rewrite Ht. cbn [negb].
    unfold SeasonCalculator.get_all_opp_matches. now rewrite Hf.
Qed.

Lemma season_ppm_returns_and_absences_witness :
  SeasonCalculator.calculate_team_points_per_match_season
    [] SeasonManager_seasons ex_future_match 2 (ymd 2021 9 1) = Returned PyNaN.
Proof.
  destruct (season_ppm_returns_and_absences
              [] SeasonManager_seasons ex_future_match 2 (ymd 2021 9 1))
    as (_ & _ & H & _).
  apply (H (mkSeason "2020-2021" (ymd 2020 9 12) (ymd 2021 5 23))).
  - reflexivity.
  - discriminate.
  - reflexivity.
Defined.

(** C6, as stated, fails.  2020-08-01 falls between two seasons, so the
    season lookup fails; for Real Madrid the function then returns the
    number 0, which is no absence marker. *)
Lemma season_ppm_zero_outside_seasons :
  SeasonManager.get_season SeasonManager_seasons (ymd 2020 8 1) = None
  /\ SeasonCalculator.calculate_team_points_per_match_season
       ex_rm_two_seasons SeasonManager_seasons [] 1 (ymd 2020 8 1) = Returned (PyInt 0)
  /\ is_absence (PyInt 0) = false.
Proof. repeat split; reflexivity. Qed.

(** The other-team branch has no guard for a failed season lookup: it
    subscripts [None] and the [TypeError] leaves the function. *)
Lemma season_ppm_other_team_raises_outside_seasons :
  SeasonCalculator.calculate_team_points_per_match_season
    [] SeasonManager_seasons ex_future_match 2 (ymd 2020 8 1) = Raised TypeError.
Proof. reflexivity. Qed.

(** * Head-to-head *)

(** C9.  Real Madrid (id 1) met team 2 on 2021-01-01 (3-0), 2021-06-01
    (1-1) and 2022-01-01 (1-2), at home or away in any combination.  As of
    2022-02-01 the summary of the last five meetings has win ratio 1/3,
    4/3 points per match and a goal balance of +2. *)
Theorem h2h_last_5_example (h1 h2 h3 : bool) :
  H2H.calculate_h2h_stats (ex_h2h h1 h2 h3) 2 (ymd 2022 2 1) (Some 5)
  = PyDict [ ("win_ratio", PyFloat (1 # 3));
             ("points_per_match", PyFloat (4 # 3));
             ("goals_balance", PyInt 2) ]%string.
Proof. destruct h1, h2, h3; reflexivity. Qed.

(** * Opponent wrappers *)

Lemma last_5_field_on_nan key opp_matches mdate team_id :
  StatsCalculator._calculate_opponent_last_5 opp_matches mdate team_id 5 = PyNaN ->
  StatsFunctions.last_5_field key opp_matches mdate team_id = Raised TypeError.
Proof.
  intros H. unfold StatsFunctions.last_5_field. now rewrite H.
Qed.

(** C10 fails on the code.  Whenever the opponent rolling form yields
    [np.nan], each of the five wrappers raises [TypeError]: [np.nan] is
    truthy, so [if result:] is taken and the float is subscripted. *)
Theorem opponent_wrappers_raise_on_nan (opp_matches : DataFrame) (mdate team_id : Z) :
  StatsCalculator._calculate_opponent_last_5 opp_matches mdate team_id 5 = PyNaN ->
  StatsFunctions.calculate_OP_G_SCO_L5 opp_matches mdate team_id = Raised TypeError
  /\ StatsFunctions.calculate_OP_G_CON_L5 opp_matches mdate team_id = Raised TypeError
  /\ StatsFunctions.calculate_OP_GDIF_L5 opp_matches mdate team_id = Raised TypeError
  /\ StatsFunctions.calculate_OP_PPM_L5 opp_matches mdate team_id = Raised TypeError
  /\ StatsFunctions.calculate_OP_OPP_POS_L5 opp_matches mdate team_id = Raised TypeError.
Proof.
  intros H. repeat split; apply last_5_field_on_nan; exact H.
Qed.

Lemma opponent_wrappers_raise_on_nan_witness :
  StatsCalculator._calculate_opponent_last_5 [] (ymd 2021 3 1) 2 5 = PyNaN
  /\ StatsFunctions.calculate_OP_G_SCO_L5 [] (ymd 2021 3 1) 2 = Raised TypeError.
Proof.
  split; [reflexivity|].
  apply (opponent_wrappers_raise_on_nan [] (ymd 2021 3 1) 2). reflexivity.
Defined.

(** * Tiers *)

(** C2 fails on the code, in two ways.  For Real Madrid a match against a
    side with PPM 1.0 is counted in the TOP tier because Real Madrid's own
    PPM (2.5) passes the test; for another team a match against a side
    with PPM exactly 1.9 is left out of the TOP tier, whose test is a
    strict [>]. *)
Theorem top_tier_membership_diverges :
  let d := ymd 2021 1 10 in
  (SeasonCalculator.tier_matches [ex_rm_vs_weak] SeasonManager_seasons [] 1 d
     TOP_TIER_MIN_PPM None = Returned (Some [ex_rm_vs_weak])
   /\ rival_ppm_at_least 1 TOP_TIER_MIN_PPM ex_rm_vs_weak = false
   /\ SeasonCalculator.calculate_team_points_against_top
        [ex_rm_vs_weak] SeasonManager_seasons [] 1 d = Returned (PyFloat 3))
  /\ (SeasonCalculator.tier_matches [] SeasonManager_seasons [ex_vs_ppm_1_9] 2 d
        TOP_TIER_MIN_PPM None = Returned (Some [])
      /\ rival_ppm_at_least 2 TOP_TIER_MIN_PPM ex_vs_ppm_1_9 = true
      /\ SeasonCalculator.opp_tier_window (PrevDict season_2019_2020) d [ex_vs_ppm_1_9]
         = Returned [ex_vs_ppm_1_9]
      /\ SeasonCalculator.calculate_team_points_against_top
           [] SeasonManager_seasons [ex_vs_ppm_1_9] 2 d = Returned PyNaN).
Proof. repeat split; reflexivity. Qed.

(** C3 fails on the code.  A window of one match against a side with PPM
    exactly 1.2 is counted by MID and by LOW, so the three tiers count two
    matches; for Real Madrid a match against a side with PPM 1.0 is
    counted by TOP (own PPM 2.5) and by LOW. *)
Theorem tier_counts_exceed_window :
  let d := ymd 2021 1 10 in
  let tiers rm all team_id :=
    ( SeasonCalculator.tier_matches rm SeasonManager_seasons all team_id d
        TOP_TIER_MIN_PPM None,
      SeasonCalculator.tier_matches rm SeasonManager_seasons all team_id d
        MID_TIER_MIN_PPM (Some MID_TIER_MAX_PPM),
      SeasonCalculator.tier_matches rm SeasonManager_seasons all team_id d
        0%Q (Some LOW_TIER_MAX_PPM) ) in
  (SeasonCalculator.opp_tier_window (PrevDict season_2019_2020) d [ex_vs_ppm_1_2]
   = Returned [ex_vs_ppm_1_2]
   /\ tiers [] [ex_vs_ppm_1_2] 2
      = (Returned (Some []), Returned (Some [ex_vs_ppm_1_2]),
         Returned (Some [ex_vs_ppm_1_2])))
  /\ (SeasonCalculator.rm_tier_window season_2019_2020 d [ex_rm_vs_weak] = [ex_rm_vs_weak]
      /\ tiers [ex_rm_vs_weak] [] 1
         = (Returned (Some [ex_rm_vs_weak]), Returned (Some []),
            Returned (Some [ex_rm_vs_weak]))).
Proof. repeat split; reflexivity. Qed.

(** * Further properties of the season registry *)

Section SeasonLookup.

Import SeasonManager.

Lemma get_season_first seasons d s :
  get_season seasons d = Some s <->
  exists earlier later,
    seasons = earlier ++ s :: later /\ holds_date d s
    /\ Forall (fun e => ~ holds_date d e) earlier.
Proof.
  unfold get_season, holds_date.
  induction seasons as [|x rest IH]; simpl.
  - split; [discriminate|]. intros (e & l & H & _). destruct e; discriminate.
  - destruct ((start_date x <=? d) && (d <=? end_date x)) eqn:E.
    + apply andb_prop in E. destruct E as [E1 E2].
      apply Z.leb_le in E1. apply Z.leb_le in E2.
      split.
      * intros H. injection H as <-. exists [], rest. repeat split; auto.
      * intros (e & l & H & Hs & Hall). destruct e as [|y e]; simpl in H.
        -- congruence.
        -- injection H as <- _. inversion Hall; subst. exfalso. auto.
    + assert (Hx : ~ (start_date x <= d <= end_date x)).
      { intros [H1 H2]. apply Z.leb_le in H1. apply Z.leb_le in H2.
        rewrite H1, H2 in E. discriminate. }
      rewrite IH. split.
      * intros (e & l & -> & Hs & Hall). exists (x :: e), l. repeat split; auto; tauto.
      * intros (e & l & H & Hs & Hall). destruct e as [|y e]; simpl in H.
        -- injection H as -> _. tauto.
        -- injection H as <- ->. inversion Hall; subst. exists e, l. repeat split; auto; tauto.
Qed.

Lemma get_season_none seasons d :
  get_season seasons d = None <-> Forall (fun e => ~ holds_date d e) seasons.
Proof.
  unfold get_season, holds_date.
  induction seasons as [|x rest IH]; simpl.
  - split; auto.
  - destruct ((start_date x <=? d) && (d <=? end_date x)) eqn:E.
    + apply andb_prop in E. destruct E as [E1 E2].
      apply Z.leb_le in E1. apply Z.leb_le in E2.
      split; [discriminate|]. intros H. inversion H; subst. exfalso. auto.
    + rewrite IH. split.
      * intros H. constructor; auto. intros [H1 H2].
        apply Z.leb_le in H1. apply Z.leb_le in H2. rewrite H1, H2 in E. discriminate.
      * intros H. now inversion H.
Qed.

Lemma StronglySorted_nth {A : Type} (R : A -> A -> Prop) (l : list A) i j a b :
  StronglySorted R l -> (i < j)%nat ->
  nth_error l i = Some a -> nth_error l j = Some b -> R a b.
Proof.
  intros H. revert i j. induction H as [|x l Hs IH Hall]; intros i j Hij Ha Hb.
  - destruct i; discriminate.
  - destruct j as [|j]; [lia|]. simpl in Hb.
    destruct i as [|i]; simpl in Ha.
    + injection Ha as <-. rewrite Forall_forall in Hall. apply Hall.
      eapply nth_error_In; eauto.
    + apply (IH i j); auto. lia.
Qed.

Lemma nth_error_middle {A : Type} (l1 l2 : list A) (x : A) :
  nth_error (l1 ++ x :: l2) (List.length l1) = Some x.
Proof. induction l1; simpl; auto. Qed.

End SeasonLookup.

(** X1.  [get_season] returns the earliest season of the list whose closed
    range holds the date, and [None] exactly when no season holds it;
    [is_valid_season_date] and [get_season_name] agree with it. *)
Theorem get_season_earliest_match (seasons : list Season) (d : Z) :
  (forall s, SeasonManager.get_season seasons d = Some s <->
             exists earlier later,
               seasons = earlier ++ s :: later /\ holds_date d s
               /\ Forall (fun e => ~ holds_date d e) earlier)
  /\ (SeasonQueries.is_valid_season_date seasons d = true <->
      exists s, In s seasons /\ holds_date d s)
  /\ (SeasonQueries.is_valid_season_date seasons d = false ->
      SeasonQueries.get_season_name seasons d = EmptyString)
  /\ (forall s, SeasonManager.get_season seasons d = Some s ->
                SeasonQueries.get_season_name seasons d = name s
                /\ SeasonQueries.get_season_for_date seasons d = Some s).
Proof.
  split; [intros s; apply get_season_first|].
  unfold SeasonQueries.is_valid_season_date, SeasonQueries.get_season_name,
    SeasonQueries.get_season_for_date.
  destruct (SeasonManager.get_season seasons d) as [cur|] eqn:E.
  - apply get_season_first in E. destruct E as (e & l & -> & Hs & _).
    split; [|split].
    + split; [intros _|reflexivity]. exists cur. split; [apply in_elt | exact Hs].
    + discriminate.
    + intros s H. injection H as <-. split; reflexivity.
  - apply get_season_none in E. rewrite Forall_forall in E.
    split; [|split].
    + split; [discriminate|]. intros (s & Hin & Hs). exfalso. exact (E s Hin Hs).
    + reflexivity.
    + discriminate.
Qed.

Lemma get_season_earliest_match_witness :
  SeasonQueries.get_season_name SeasonManager_seasons (ymd 2021 1 10) = "2020-2021"%string
  /\ SeasonQueries.get_season_for_date SeasonManager_seasons (ymd 2021 1 10)
     = Some (mkSeason "2020-2021" (ymd 2020 9 12) (ymd 2021 5 23)).
Proof.
  destruct (get_season_earliest_match SeasonManager_seasons (ymd 2021 1 10))
    as (_ & _ & _ & H).
  apply (H (mkSeason "2020-2021" (ymd 2020 9 12) (ymd 2021 5 23))). reflexivity.
Defined.

(** The previous season found for a date ended before it. *)
Lemma previous_season_before (seasons : list Season) (d : Z) (prev : Season) :
  chronological seasons ->
  NoDup (map name seasons) ->
  SeasonManager.get_previous_season seasons (SeasonManager.get_season seasons d)
  = PrevDict prev ->
  In prev seasons /\ end_date prev < d.
Proof.
  intros Hchrono Hnd H.
  unfold SeasonManager.get_previous_season in H.
  destruct (SeasonManager.get_season seasons d) as [cur|] eqn:Ecur; [|discriminate].
  apply get_season_first in Ecur. destruct Ecur as (e & l & Hsplit & [Hs _] & _).
  assert (Hn : nth_error seasons (List.length e) = Some cur)
    by (rewrite Hsplit; apply nth_error_middle).
  assert (Hnm : nth_error (map name seasons) (List.length e) = Some (name cur))
    by (rewrite nth_error_map, Hn; reflexivity).
  rewrite (index_of_name_complete _ _ _ Hnm (NoDup_nth_not_in_firstn _ _ _ Hnd Hnm)) in H.
  destruct (List.length e) as [|i] eqn:El; [discriminate|].
  destruct (nth_error seasons i) as [p|] eqn:Ep; [|discriminate].
  injection H as <-. split; [eapply nth_error_In; eauto|].
  assert (Hlt : end_date p < start_date cur).
  { apply (StronglySorted_nth _ seasons i (S i) p cur Hchrono); auto. }
  lia.
Qed.

(** X2.  When the seasons are listed in chronological order and under
    distinct names, the previous season found for a date is a season of
    the list that ended strictly before that date. *)
Theorem previous_season_ends_before_date (seasons : list Season) (d : Z) (prev : Season) :
  chronological seasons ->
  NoDup (map name seasons) ->
  SeasonManager.get_previous_season seasons (SeasonManager.get_season seasons d)
  = PrevDict prev ->
  In prev seasons /\ end_date prev < d.
Proof.
  apply previous_season_before.
Qed.

Lemma SeasonManager_seasons_chronological : chronological SeasonManager_seasons.
Proof.
  unfold chronological. simpl.
  repeat (constructor; [|repeat constructor; simpl; unfold ymd; lia]).
  constructor.
Qed.

Lemma previous_season_ends_before_date_witness :
  In season_2019_2020 SeasonManager_seasons
  /\ end_date season_2019_2020 < ymd 2021 1 10.
Proof.
  apply (previous_season_ends_before_date SeasonManager_seasons).
  - exact SeasonManager_seasons_chronological.
  - simpl. repeat constructor; simpl; intuition discriminate.
  - reflexivity.
Defined.

(** The lookup fails exactly for the dates outside every season. *)
Lemma previous_season_none_invalid (seasons : list Season) (d : Z) :
  SeasonManager.get_previous_season seasons (SeasonManager.get_season seasons d) = PrevNone
  <-> SeasonQueries.is_valid_season_date seasons d = false.
Proof.
  unfold SeasonQueries.is_valid_season_date, SeasonManager.get_previous_season.
  destruct (SeasonManager.get_season seasons d) as [cur|] eqn:E; [|tauto].
  split; [|discriminate]. intros H. exfalso.
  apply get_season_first in E. destruct E as (e & l & Hsplit & _).
  assert (Hin : In (name cur) (map name seasons)).
  { apply in_map. rewrite Hsplit. apply in_elt. }
  destruct (SeasonManager.index_of_name seasons (name cur)) as [k|] eqn:Ek.
  - destruct k as [|k]; [discriminate|].
    destruct (index_of_name_sound _ _ _ Ek) as [Hk _].
    assert (Hlen : (S k < List.length (map name seasons))%nat)
      by (apply nth_error_Some; congruence).
    rewrite length_map in Hlen.
    destruct (nth_error seasons k) eqn:Ep; [discriminate|].
    apply nth_error_None in Ep. lia.
  - apply index_of_name_none in Ek. contradiction.
Qed.

(** X3.  The two-step season lookup yields [None] exactly for the dates
    that no season holds: for a date inside a season it yields the
    first-season sentinel or a season. *)
Theorem previous_season_none_iff_invalid_date (seasons : list Season) (d : Z) :
  SeasonManager.get_previous_season seasons (SeasonManager.get_season seasons d) = PrevNone
  <-> SeasonQueries.is_valid_season_date seasons d = false.
Proof.
  apply previous_season_none_invalid.
Qed.

(** * Further properties of the rolling form *)

Lemma date_before_total a b : date_before a b = false -> date_before b a = true.
Proof.
  destruct a as [x|], b as [y|]; simpl; try discriminate; auto.
  rewrite Z.leb_gt, Z.leb_le. lia.
Qed.

Lemma date_before_trans a b c :
  date_before a b = true -> date_before b c = true -> date_before a c = true.
Proof.
  destruct a as [x|], b as [y|], c as [z|]; simpl; try discriminate; auto.
  rewrite !Z.leb_le. lia.
Qed.

Lemma insert_desc_sorted m l :
  StronglySorted more_recent l -> StronglySorted more_recent (insert_desc m l).
Proof.
  induction 1 as [|x l Hs IH Hall]; simpl.
  - repeat constructor.
  - destruct (date_before (match_date m) (match_date x)) eqn:E.
    + constructor; [constructor; auto|].
      constructor; [exact E|].
      rewrite Forall_forall in *. intros y Hy.
      eapply date_before_trans; [exact E | apply Hall; exact Hy].
    + constructor; [exact IH|].
      apply (Permutation_Forall (Permutation_sym (insert_desc_perm m l))).
      constructor; [|exact Hall]. now apply date_before_total.
Qed.

Lemma sort_values_desc_sorted df : StronglySorted more_recent (sort_values_desc df).
Proof.
  induction df as [|m df IH]; [constructor|].
  unfold sort_values_desc in *. simpl. now apply insert_desc_sorted.
Qed.

Lemma StronglySorted_app_cross {A : Type} (R : A -> A -> Prop) (l1 l2 : list A) :
  StronglySorted R (l1 ++ l2) -> forall a b, In a l1 -> In b l2 -> R a b.
Proof.
  induction l1 as [|x l1 IH]; simpl; intros H a b Ha Hb; [contradiction|].
  inversion H as [|? ? Hs Hall]; subst. destruct Ha as [<-|Ha].
  - rewrite Forall_forall in Hall. apply Hall. apply in_or_app. now right.
  - now apply IH.
Qed.

Lemma head_split {A : Type} (n : Z) (l : list A) : exists rest, l = head n l ++ rest.
Proof.
  unfold head. destruct (0 <=? n); eexists; symmetry; apply firstn_skipn.
Qed.

Lemma len_head {A : Type} (n : Z) (l : list A) :
  0 <= n -> len (head n l) = Z.min n (len l).
Proof.
  intros H. unfold head, len. apply Z.leb_le in H. rewrite H.
  apply Z.leb_le in H. rewrite length_firstn. lia.
Qed.

(** X5.  The rows kept by [sort_values('match_date', ascending=False)]
    followed by [head(n)] are the most recent ones: the sorted frame is the
    kept rows followed by the dropped ones, every kept row is dated no
    earlier than every dropped row, and for [n >= 0] exactly
    [min(n, len(df))] rows are kept. *)
Theorem last_matches_are_most_recent (df : DataFrame) (n : Z) :
  exists dropped,
    sort_values_desc df = head n (sort_values_desc df) ++ dropped
    /\ Permutation (head n (sort_values_desc df) ++ dropped) df
    /\ (forall a b, In a (head n (sort_values_desc df)) -> In b dropped ->
                    more_recent a b)
    /\ (0 <= n -> len (head n (sort_values_desc df)) = Z.min n (len df)).
Proof.
  destruct (head_split n (sort_values_desc df)) as [rest Hrest].
  exists rest. split; [exact Hrest|]. split; [|split].
  - rewrite <- Hrest. apply sort_values_desc_perm.
  - apply StronglySorted_app_cross. rewrite <- Hrest. apply sort_values_desc_sorted.
  - intros Hn. rewrite len_head by exact Hn.
    now rewrite (len_perm _ _ (sort_values_desc_perm df)).
Qed.

Lemma last_matches_are_most_recent_witness :
  len (head 2 (sort_values_desc ex_form_table)) = Z.min 2 (len ex_form_table).
Proof.
  destruct (last_matches_are_most_recent ex_form_table 2) as (dropped & _ & _ & _ & H).
  apply H. lia.
Defined.

(** The rolling form in terms of the frame the calculator sorts and cuts:
    for [n >= 1] and a non-empty filtered frame the result is absent (a
    NaN in an inspected column of the cut frame) or the means over the cut
    frame. *)
Lemma rolling_form_on_cut_frame
    (rm_matches opp_matches : DataFrame) (mdate team_id n : Z) :
  let prior :=
    if team_id =? 1 then StatsCalculator.rm_prior rm_matches mdate
    else StatsCalculator.opp_prior opp_matches mdate team_id in
  let window := head n (sort_values_desc prior) in
  let r := StatsCalculator.calculate_last_5_stats rm_matches opp_matches mdate team_id n in
  let mean f := true_div (inject_Z (Zsum f window)) (len window) in
  1 <= n -> prior <> [] ->
  len window = Z.min n (len prior)
  /\ (existsb row_has_nan window = true -> is_absence r = true)
  /\ (existsb row_has_nan window = false ->
      exists rivals,
        (rivals == true_div (Qsum (rival_ppm team_id) window) (len window))%Q
        /\ r = if team_id =? 1 then
                 PyDict
                   [ ("RM_G_SCO_L5", PyFloat (mean (fun m => nz (goals m))));
                     ("RM_G_CON_L5", PyFloat (mean (goals_against 1)));
                     ("RM_GDIF_L5",
                      PyFloat (mean (fun m => nz (goals m) - goals_against 1 m)));
                     ("RM_PPM_L5", PyFloat (mean rm_points));
                     ("RM_OPP_PPM_L5", PyFloat rivals) ]%string
               else
                 PyDict
                   [ ("OP_G_SCO_L5", PyFloat (mean (goals_for team_id)));
                     ("OP_G_CON_L5", PyFloat (mean (goals_against team_id)));
                     ("OP_GDIF_L5",
                      PyFloat (mean (fun m => goals_for team_id m - goals_against team_id m)));
                     ("OP_PPM_L5", PyFloat (mean (form_points team_id)));
                     ("OP_OPP_PPM_L5", PyFloat rivals) ]%string).
Proof.
  intros prior window r mean Hn Hprior.
  assert (Hlen : len window = Z.min n (len prior)).
  { subst window. rewrite len_head by lia.
    now rewrite (len_perm _ _ (sort_values_desc_perm prior)). }
  assert (Hpos : 1 <= len prior).
  { destruct prior; [contradiction|]. unfold len. simpl List.length. lia. }
  assert (Hz : (len window =? 0) = false) by (apply Z.eqb_neq; lia).
  split; [exact Hlen|].
  subst r mean. unfold StatsCalculator.calculate_last_5_stats,
    StatsCalculator._calculate_real_madrid_last_5,
    StatsCalculator._calculate_opponent_last_5.
  subst window prior. destruct (team_id =? 1) eqn:Et.
  - apply Z.eqb_eq in Et. subst team_id. rewrite Hz.
    unfold check_NaN_column_in_RM_matches. split.
    + intros ->. reflexivity.
    + intros ->. cbn [negb]. eexists. split; [|].
      2:{ rewrite conceded_as_sum, rm_points_as_sum, sum_Z_map, Zsum_sub. reflexivity. }
      unfold true_div. rewrite rival_ppm_as_sum. reflexivity.
  - rewrite Hz. unfold check_NaN_column_in_RM_matches. split.
    + intros ->. reflexivity.
    + intros ->. cbn [negb]. eexists. split; [|].
      2:{ rewrite scored_as_sum, conceded_as_sum, form_points_as_sum, Zsum_sub.
          reflexivity. }
      unfold true_div. rewrite rival_ppm_as_sum. reflexivity.
Qed.

Lemma more_recent_not_older (a b : Match) : more_recent a b -> not_older a b.
Proof.
  unfold more_recent, not_older. intros H x y Ha Hb.
  rewrite Ha, Hb in H. simpl in H. now apply Z.leb_le.
Qed.

(** X6.  For [n >= 1] and at least one match of the team dated strictly
    before the date, the rolling form is computed over the [min(n, k)] most
    recent of those [k] matches: they split into a window of that size and
    the rest, no match of the window being older than a match of the
    rest, and the result is an absence marker when a cell of an inspected
    column is missing in the window, and otherwise the dict of the sums
    over the window divided by the size of the window.  Which of several
    matches of equal date enter the window is not stated. *)
Theorem last_5_stats_means_over_recent_window
    (rm_matches opp_matches : DataFrame) (mdate team_id n : Z) :
  let prior := matches_before team_id mdate rm_matches opp_matches in
  let r := StatsCalculator.calculate_last_5_stats rm_matches opp_matches mdate team_id n in
  1 <= n -> prior <> [] ->
  exists window rest,
    Permutation (window ++ rest) prior
    /\ (forall a b, In a window -> In b rest -> not_older a b)
    /\ Z.of_nat (List.length window) = Z.min n (Z.of_nat (List.length prior))
    /\ (existsb checked_cell_missing window = true -> is_absence r = true)
    /\ (existsb checked_cell_missing window = false ->
        exists rivals,
          (rivals == qmean_over (rival_ppm team_id) window)%Q
          /\ r = if team_id =? 1 then
                   PyDict
                     [ ("RM_G_SCO_L5", PyFloat (mean_over (fun m => nz (goals m)) window));
                       ("RM_G_CON_L5", PyFloat (mean_over (goals_against 1) window));
                       ("RM_GDIF_L5",
                        PyFloat (mean_over (fun m => nz (goals m) - goals_against 1 m)
                                           window));
                       ("RM_PPM_L5", PyFloat (mean_over rm_match_points window));
                       ("RM_OPP_PPM_L5", PyFloat rivals) ]%string
                 else
                   PyDict
                     [ ("OP_G_SCO_L5", PyFloat (mean_over (goals_for team_id) window));
                       ("OP_G_CON_L5", PyFloat (mean_over (goals_against team_id) window));
                       ("OP_GDIF_L5",
                        PyFloat (mean_over
                                   (fun m => goals_for team_id m - goals_against team_id m)
                                   window));
                       ("OP_PPM_L5", PyFloat (mean_over (match_points team_id) window));
                       ("OP_OPP_PPM_L5", PyFloat rivals) ]%string).
Proof.
  intros prior r Hn Hne. subst r prior.
  rewrite matches_before_filtered in *.
  set (prior := if team_id =? 1 then StatsCalculator.rm_prior rm_matches mdate
                else StatsCalculator.opp_prior opp_matches mdate team_id) in *.
  destruct (head_split n (sort_values_desc prior)) as [rest Hrest].
  exists (head n (sort_values_desc prior)), rest.
  destruct (rolling_form_on_cut_frame rm_matches opp_matches mdate team_id n Hn Hne)
    as (Hlen & Habs & Hdict).
  fold prior in Hlen, Habs, Hdict.
  split; [rewrite <- Hrest; apply sort_values_desc_perm|].
  split.
  { intros a b Ha Hb. apply more_recent_not_older.
    refine (StronglySorted_app_cross more_recent _ rest _ a b Ha Hb).
    rewrite <- Hrest. apply sort_values_desc_sorted. }
  split; [exact Hlen|].
  rewrite <- existsb_checked_cell_missing.
  rewrite <- (mean_over_ext _ _ _ rm_match_points_form),
          <- (mean_over_ext _ _ _ (match_points_form team_id)).
  split; [exact Habs | exact Hdict].
Qed.

Lemma last_5_stats_means_over_recent_window_witness :
  exists window rest,
    Permutation (window ++ rest)
      (matches_before 2 (ymd 2021 3 1) [] ex_form_table)
    /\ Z.of_nat (List.length window) = 1
    /\ (existsb checked_cell_missing window = false ->
        exists rivals,
          (rivals == qmean_over (rival_ppm 2) window)%Q
          /\ StatsCalculator.calculate_last_5_stats [] ex_form_table (ymd 2021 3 1) 2 1
             = PyDict
                 [ ("OP_G_SCO_L5", PyFloat (mean_over (goals_for 2) window));
                   ("OP_G_CON_L5", PyFloat (mean_over (goals_against 2) window));
                   ("OP_GDIF_L5",
                    PyFloat (mean_over (fun m => goals_for 2 m - goals_against 2 m) window));
                   ("OP_PPM_L5", PyFloat (mean_over (match_points 2) window));
                   ("OP_OPP_PPM_L5", PyFloat rivals) ]%string).
Proof.
  destruct (last_5_stats_means_over_recent_window [] ex_form_table (ymd 2021 3 1) 2 1)
    as (window & rest & Hperm & _ & Hlen & _ & Hdict).
  - lia.
  - discriminate.
  - exists window, rest. split; [exact Hperm|]. split; [exact Hlen|]. exact Hdict.
Defined.

(** * Bounds *)

Lemma Zsum_bounds {A : Type} (f : A -> Z) (c : Z) (l : list A) :
  (forall x, 0 <= f x <= c) -> 0 <= Zsum f l <= c * len l.
Proof.
  intros H. unfold len. induction l as [|x l IH].
  - simpl. lia.
  - cbn [Zsum fold_right List.length]. fold (Zsum f l).
    rewrite Nat2Z.inj_succ. specialize (H x). lia.
Qed.

Lemma true_div_bounds (a c n : Z) :
  0 < n -> 0 <= a <= c * n ->
  (0 <= true_div (inject_Z a) n <= inject_Z c)%Q.
Proof.
  intros Hn [H0 H1]. unfold true_div.
  assert (Hq : (0 < inject_Z n)%Q)
    by (change 0%Q with (inject_Z 0); now rewrite <- Zlt_Qlt).
  split.
  - apply Qle_shift_div_l; [exact Hq|].
    change 0%Q with (inject_Z 0). rewrite <- inject_Z_mult, <- Zle_Qle. lia.
  - apply Qle_shift_div_r; [exact Hq|].
    rewrite <- inject_Z_mult, <- Zle_Qle. lia.
Qed.

Lemma form_points_bounds team_id m : 0 <= form_points team_id m <= 3.
Proof.
  unfold form_points, cell_gt, cell_eq, WIN_POINTS, DRAW_POINTS.
  destruct (home_team_id m =? team_id), (away_team_id m =? team_id),
    (home_goals m) as [x|], (away_goals m) as [y|]; simpl; try lia;
    destruct (Z.ltb_spec y x), (Z.ltb_spec x y), (Z.eqb_spec x y); lia.
Qed.

Lemma season_points_bounds team_id m : 0 <= season_points team_id m <= 3.
Proof.
  unfold season_points, cell_gt, cell_eq, WIN_POINTS, DRAW_POINTS.
  destruct (home_team_id m =? team_id), (away_team_id m =? team_id),
    (home_goals m) as [x|], (away_goals m) as [y|]; simpl; try lia;
    destruct (Z.ltb_spec y x), (Z.ltb_spec x y), (Z.eqb_spec x y), (Z.eqb_spec y x); lia.
Qed.

Lemma rm_points_bounds m : 0 <= rm_points m <= 3.
Proof.
  unfold rm_points, result_is, WIN_POINTS, DRAW_POINTS.
  destruct (real_result m) as [v|]; simpl; [|lia].
  destruct (Qeq_bool v 1) eqn:E1; destruct (Qeq_bool v (1 # 2)) eqn:E2; try lia.
  apply Qeq_bool_iff in E1. apply Qeq_bool_iff in E2.
  rewrite E1 in E2. discriminate E2.
Qed.

Lemma len_pos_of_ne (l : DataFrame) : (len l =? 0) = false -> 0 < len l.
Proof. intros H. apply Z.eqb_neq in H. unfold len in *. lia. Qed.

(** X7.  Whenever the rolling form returns a dict, it has the five
    entries of its branch, and the first four are integers divided by one
    common count [N >= 1] (at most [n] for [n >= 0]): goals scored [S],
    goals conceded [C], their difference [S - C] and points [P], with
    [0 <= P <= 3 * N], so that the points per match lie between 0 and 3. *)
Theorem last_5_stats_dict_shape
    (rm_matches opp_matches : DataFrame) (mdate team_id n : Z)
    (entries : list (string * pyval)) :
  StatsCalculator.calculate_last_5_stats rm_matches opp_matches mdate team_id n
  = PyDict entries ->
  exists (S C P N : Z) (rivals : Q),
    entries
    = (let quotient (a : Z) := PyFloat (inject_Z a / inject_Z N) in
       if team_id =? 1 then
         [ ("RM_G_SCO_L5", quotient S); ("RM_G_CON_L5", quotient C);
           ("RM_GDIF_L5", quotient (S - C)); ("RM_PPM_L5", quotient P);
           ("RM_OPP_PPM_L5", PyFloat rivals) ]%string
       else
         [ ("OP_G_SCO_L5", quotient S); ("OP_G_CON_L5", quotient C);
           ("OP_GDIF_L5", quotient (S - C)); ("OP_PPM_L5", quotient P);
           ("OP_OPP_PPM_L5", PyFloat rivals) ]%string)
    /\ 1 <= N /\ (0 <= n -> N <= n)
    /\ 0 <= P <= 3 * N
    /\ (0 <= inject_Z P / inject_Z N <= 3)%Q.
Proof.
  unfold StatsCalculator.calculate_last_5_stats,
    StatsCalculator._calculate_real_madrid_last_5,
    StatsCalculator._calculate_opponent_last_5.
  destruct (team_id =? 1).
  - set (w := head n _).
    destruct (len w =? 0) eqn:Hz; [discriminate|].
    destruct (negb (check_NaN_column_in_RM_matches w)); [discriminate|].
    intros H. injection H as <-. apply len_pos_of_ne in Hz.
    assert (HP : 0 <= Zsum rm_points w <= 3 * len w)
      by (apply Zsum_bounds; apply rm_points_bounds).
    rewrite rm_points_as_sum.
    do 5 eexists. split; [unfold true_div; reflexivity|].
    split; [lia|]. split.
    { intros Hn. subst w. rewrite len_head by exact Hn. lia. }
    split; [exact HP|]. apply (true_div_bounds _ 3 _ Hz HP).
  - set (w := head n _).
    destruct (len w =? 0) eqn:Hz; [discriminate|].
    destruct (negb (check_NaN_column_in_RM_matches w)); [discriminate|].
    intros H. injection H as <-. apply len_pos_of_ne in Hz.
    assert (HP : 0 <= Zsum (form_points team_id) w <= 3 * len w)
      by (apply Zsum_bounds; apply form_points_bounds).
    rewrite form_points_as_sum.
    do 5 eexists. split; [unfold true_div; reflexivity|].
    split; [lia|]. split.
    { intros Hn. subst w. rewrite len_head by exact Hn. lia. }
    split; [exact HP|]. apply (true_div_bounds _ 3 _ Hz HP).
Qed.

Lemma last_5_stats_dict_shape_witness :
  exists (S C P N : Z) (rivals : Q),
    StatsCalculator.calculate_last_5_stats [] ex_form_table (ymd 2021 3 1) 2 5
    = PyDict [ ("OP_G_SCO_L5", PyFloat (inject_Z S / inject_Z N));
               ("OP_G_CON_L5", PyFloat (inject_Z C / inject_Z N));
               ("OP_GDIF_L5", PyFloat (inject_Z (S - C) / inject_Z N));
               ("OP_PPM_L5", PyFloat (inject_Z P / inject_Z N));
               ("OP_OPP_PPM_L5", PyFloat rivals) ]%string
    /\ 1 <= N /\ N <= 5 /\ 0 <= P <= 3 * N.
Proof.
  destruct (last_5_stats_dict_shape [] ex_form_table (ymd 2021 3 1) 2 5 _ eq_refl)
    as (S & C & P & N & rivals & He & H1 & Hn & HP & _).
  exists S, C, P, N, rivals. split; [|split; [exact H1|split; [apply Hn; lia|exact HP]]].
  cbn [Z.eqb Pos.eqb] in He. rewrite <- He. reflexivity.
Defined.

(** X8.  Every number returned as season PPM lies between 0 and 3, and so
    does every points-per-match value of the tier statistics. *)
Theorem season_calculator_ppm_bounds
    (rm_matches : DataFrame) (seasons : list Season) (all_matches : DataFrame)
    (team_id mdate : Z) (min_ppm : Q) (max_ppm : option Q) :
  (forall q,
     SeasonCalculator.calculate_team_points_per_match_season
       rm_matches seasons all_matches team_id mdate = Returned (PyFloat q) ->
     (0 <= q <= 3)%Q)
  /\ (forall g q,
        SeasonCalculator.calculate_team_stats_against_tier
          rm_matches seasons all_matches team_id mdate min_ppm max_ppm
        = Returned (g, PyFloat q) ->
        (0 <= q <= 3)%Q).
Proof.
  split.
  - intros q. unfold SeasonCalculator.calculate_team_points_per_match_season.
    destruct (negb (team_id =? 1)).
    + destruct (SeasonCalculator.get_all_opp_matches _ _); [|discriminate].
      destruct (SeasonManager.get_previous_season _ _); try discriminate.
      destruct (len _ =? 0) eqn:Hz; [discriminate|].
      intros H. injection H as <-. rewrite season_points_as_sum.
      apply (true_div_bounds _ 3); [now apply len_pos_of_ne|].
      apply Zsum_bounds. apply season_points_bounds.
    + destruct (SeasonManager.get_previous_season _ _); try discriminate.
      destruct (len _ =? 0) eqn:Hz; [discriminate|].
      intros H. injection H as <-. rewrite points_from_real_result_as_sum.
      apply (true_div_bounds _ 3); [now apply len_pos_of_ne|].
      apply Zsum_bounds. apply rm_points_bounds.
  - intros g q. unfold SeasonCalculator.calculate_team_stats_against_tier.
    destruct (SeasonCalculator.tier_matches _ _ _ _ _ _ _) as [[tm|]|]; cbn [bind];
      try discriminate.
    destruct (len tm =? 0) eqn:Hz; [discriminate|].
    destruct (negb (team_id =? 1)).
    + destruct ((len _ =? 0) && (len _ =? 0)); [discriminate|].
      intros H. injection H as _ <-. rewrite season_points_as_sum.
      apply (true_div_bounds _ 3); [now apply len_pos_of_ne|].
      apply Zsum_bounds. apply season_points_bounds.
    + intros H. injection H as _ <-. rewrite points_from_real_result_as_sum.
      apply (true_div_bounds _ 3); [now apply len_pos_of_ne|].
      apply Zsum_bounds. apply rm_points_bounds.
Qed.

Lemma season_calculator_ppm_bounds_witness : (0 <= 3 # 2 <= 3)%Q.
Proof.
  apply (proj1 (season_calculator_ppm_bounds
                  ex_rm_two_seasons SeasonManager_seasons [] 1 (ymd 2021 1 10)
                  TOP_TIER_MIN_PPM None)).
  reflexivity.
Defined.

(** * Further properties of the head-to-head calculator *)

Section HeadToHead.

Import H2H.

Lemma sort_values_desc_cons df :
  df <> [] -> exists x xs, sort_values_desc df = x :: xs.
Proof.
  intros H. destruct (sort_values_desc df) as [|x xs] eqn:E; [|eauto].
  exfalso. apply H.
  pose proof (Permutation_length (sort_values_desc_perm df)) as Hl.
  rewrite E in Hl. destruct df; [reflexivity | discriminate].
Qed.

Lemma head_cons {A : Type} (n : Z) (x : A) (xs : list A) :
  1 <= n -> exists ys, head n (x :: xs) = x :: ys.
Proof.
  intros H. unfold head. destruct (0 <=? n) eqn:E; [|lia].
  destruct (Z.to_nat n) as [|k] eqn:Ek; [lia|]. simpl. eauto.
Qed.

Lemma prior_meetings_filtered df opp_id mdate :
  prior_meetings df opp_id mdate
  = filter (fun m => date_lt (match_date m) mdate && meeting opp_id m) df.
Proof. reflexivity. Qed.

Lemma get_h2h_matches_none df opp_id mdate last_n :
  prior_meetings df opp_id mdate = [] ->
  get_h2h_matches df opp_id mdate last_n = None.
Proof. rewrite prior_meetings_filtered. unfold get_h2h_matches. now intros ->. Qed.

Lemma get_h2h_matches_some df opp_id mdate last_n :
  prior_meetings df opp_id mdate <> [] ->
  (forall n, last_n = Some n -> 0 <= n) ->
  exists x xs, get_h2h_matches df opp_id mdate last_n = Some (x :: xs).
Proof.
  rewrite prior_meetings_filtered. unfold get_h2h_matches. intros Hne Hn.
  destruct (sort_values_desc_cons _ Hne) as (x & xs & Hs).
  destruct (filter _ df) as [|m l] eqn:Ef; [contradiction|].
  rewrite Hs. destruct last_n as [n|]; [|eauto].
  destruct (Z.eqb_spec n 0); cbn [negb]; [eauto|].
  specialize (Hn n eq_refl).
  destruct (head_cons n x xs) as [ys Hys]; [lia|]. rewrite Hys. eauto.
Qed.

Lemma get_h2h_matches_all df opp_id mdate n :
  0 <= n -> len (prior_meetings df opp_id mdate) <= n ->
  get_h2h_matches df opp_id mdate (Some n) = get_h2h_matches df opp_id mdate None.
Proof.
  rewrite prior_meetings_filtered. unfold get_h2h_matches. intros H0 Hn.
  destruct (filter _ df) as [|m l] eqn:Ef; [reflexivity|].
  destruct (n =? 0); cbn [negb]; [reflexivity|].
  rewrite head_all; [reflexivity|].
  now rewrite (len_perm _ _ (sort_values_desc_perm _)).
Qed.

Lemma rm_wins_bounds (l : DataFrame) : 0 <= rm_wins l <= 1 * len l.
Proof.
  unfold rm_wins. rewrite !len_filter_Zsum, Zsum_add.
  apply Zsum_bounds. intros m. unfold cell_gt.
  destruct (home_team_id m =? REAL_MADRID_ID), (away_team_id m =? REAL_MADRID_ID),
    (home_goals m) as [x|], (away_goals m) as [y|]; simpl; try lia;
    destruct (Z.ltb_spec y x), (Z.ltb_spec x y); lia.
Qed.

Lemma h2h_points_bounds (l : DataFrame) :
  0 <= rm_wins l * WIN_POINTS + draws l * DRAW_POINTS <= 3 * len l.
Proof.
  unfold rm_wins, draws, REAL_MADRID_ID. rewrite form_points_as_sum.
  apply Zsum_bounds. apply form_points_bounds.
Qed.

End HeadToHead.

(** X9.  As long as [last_n] is [None] or not negative, the three
    head-to-head features agree on absence: the summary is [None], the
    overall PPM is [None] and [is_playing_before] is false exactly when no
    meeting of Real Madrid with the opponent is dated before the date. *)
Theorem h2h_absent_iff_no_prior_meeting
    (df : DataFrame) (opp_id mdate : Z) (last_n : option Z) :
  (forall n, last_n = Some n -> 0 <= n) ->
  (H2H.calculate_h2h_stats df opp_id mdate last_n = PyNone
   <-> prior_meetings df opp_id mdate = [])
  /\ (H2H.calculate_h2h_overall_ppm df opp_id mdate = PyNone
      <-> prior_meetings df opp_id mdate = [])
  /\ (H2H.is_playing_before df mdate opp_id = false
      <-> prior_meetings df opp_id mdate = []).
Proof.
  intros Hn.
  unfold H2H.calculate_h2h_stats, H2H.calculate_h2h_overall_ppm, H2H.is_playing_before.
  destruct (prior_meetings df opp_id mdate) as [|m l] eqn:E.
  - rewrite !(get_h2h_matches_none _ _ _ _ E). tauto.
  - assert (Hne : prior_meetings df opp_id mdate <> []) by (rewrite E; discriminate).
    destruct (get_h2h_matches_some df opp_id mdate last_n Hne Hn) as (x & xs & ->).
    destruct (get_h2h_matches_some df opp_id mdate None Hne) as (y & ys & ->);
      [discriminate|].
    repeat split; discriminate.
Qed.

Lemma h2h_absent_iff_no_prior_meeting_witness :
  H2H.calculate_h2h_stats (ex_h2h true false true) 2 (ymd 2021 1 1) (Some 5) = PyNone.
Proof.
  apply (h2h_absent_iff_no_prior_meeting (ex_h2h true false true) 2 (ymd 2021 1 1) (Some 5)).
  - intros n H. injection H as <-. lia.
  - reflexivity.
Defined.

(** X10.  Whenever the head-to-head summary is a dict, its win ratio lies
    between 0 and 1 and its points per match between 0 and 3; a number
    returned as overall PPM lies between 0 and 3 as well. *)
Theorem h2h_bounds (df : DataFrame) (opp_id mdate : Z) (last_n : option Z) :
  (forall entries,
     H2H.calculate_h2h_stats df opp_id mdate last_n = PyDict entries ->
     exists w p g,
       entries = [ ("win_ratio", PyFloat w); ("points_per_match", PyFloat p);
                   ("goals_balance", PyInt g) ]%string
       /\ (0 <= w <= 1)%Q /\ (0 <= p <= 3)%Q)
  /\ (forall q,
        H2H.calculate_h2h_overall_ppm df opp_id mdate = PyFloat q -> (0 <= q <= 3)%Q).
Proof.
  split.
  - intros entries. unfold H2H.calculate_h2h_stats.
    destruct (H2H.get_h2h_matches df opp_id mdate last_n) as [[|x xs]|];
      try discriminate.
    intros H. injection H as <-. do 3 eexists. split; [reflexivity|].
    assert (Hpos : 0 < len (x :: xs)) by (unfold len; simpl List.length; lia).
    split.
    + apply (true_div_bounds _ 1 _ Hpos). apply rm_wins_bounds.
    + apply (true_div_bounds _ 3 _ Hpos). apply h2h_points_bounds.
  - intros q. unfold H2H.calculate_h2h_overall_ppm.
    destruct (H2H.get_h2h_matches df opp_id mdate None) as [[|x xs]|];
      try discriminate.
    intros H. injection H as <-.
    assert (Hpos : 0 < len (x :: xs)) by (unfold len; simpl List.length; lia).
    apply (true_div_bounds _ 3 _ Hpos). apply h2h_points_bounds.
Qed.

Lemma h2h_bounds_witness : (0 <= 4 # 3 <= 3)%Q.
Proof.
  apply (proj2 (h2h_bounds (ex_h2h true false true) 2 (ymd 2022 2 1) None)).
  reflexivity.
Defined.

(** X11.  With [n >= 0] and at most [n] meetings before the date, the
    summary of the last [n] meetings is taken over the whole history: both
    are [None], or the points per match of the summary is the overall
    PPM. *)
Theorem h2h_last_n_is_overall_when_few (df : DataFrame) (opp_id mdate n : Z) :
  0 <= n -> len (prior_meetings df opp_id mdate) <= n ->
  (H2H.calculate_h2h_stats df opp_id mdate (Some n) = PyNone
   /\ H2H.calculate_h2h_overall_ppm df opp_id mdate = PyNone)
  \/ exists w q g,
       H2H.calculate_h2h_stats df opp_id mdate (Some n)
       = PyDict [ ("win_ratio", PyFloat w); ("points_per_match", PyFloat q);
                  ("goals_balance", PyInt g) ]%string
       /\ H2H.calculate_h2h_overall_ppm df opp_id mdate = PyFloat q.
Proof.
  intros H0 Hn. unfold H2H.calculate_h2h_stats, H2H.calculate_h2h_overall_ppm.
  rewrite (get_h2h_matches_all df opp_id mdate n H0 Hn).
  destruct (H2H.get_h2h_matches df opp_id mdate None) as [[|x xs]|]; auto.
  right. do 3 eexists. split; reflexivity.
Qed.

Lemma h2h_last_n_is_overall_when_few_witness :
  exists w q g,
    H2H.calculate_h2h_stats (ex_h2h true false true) 2 (ymd 2022 2 1) (Some 5)
    = PyDict [ ("win_ratio", PyFloat w); ("points_per_match", PyFloat q);
               ("goals_balance", PyInt g) ]%string
    /\ H2H.calculate_h2h_overall_ppm (ex_h2h true false true) 2 (ymd 2022 2 1) = PyFloat q.
Proof.
  destruct (h2h_last_n_is_overall_when_few (ex_h2h true false true) 2 (ymd 2022 2 1) 5)
    as [[H _]|H].
  - lia.
  - vm_compute. discriminate.
  - vm_compute in H. discriminate H.
  - exact H.
Defined.

(** * Further properties of the tiers *)

Lemma Zsum_ext_in {A : Type} (f g : A -> Z) (l : list A) :
  (forall x, In x l -> f x = g x) -> Zsum f l = Zsum g l.
Proof.
  induction l as [|x l IH]; intros H; simpl; [reflexivity|].
  rewrite (H x (or_introl eq_refl)), IH; auto. intros y Hy. apply H. now right.
Qed.

Lemma Zsum_ones {A : Type} (l : list A) : Zsum (fun _ => 1) l = len l.
Proof.
  unfold len. induction l as [|x l IH]; [reflexivity|].
  cbn [Zsum fold_right List.length]. fold (Zsum (fun _ : A => 1) l).
  rewrite Nat2Z.inj_succ. lia.
Qed.

Lemma Qle_bool_false x y : Qle_bool x y = false -> (y < x)%Q.
Proof.
  intros H. apply Qnot_le_lt. intros Hle. apply Qle_bool_iff in Hle. congruence.
Qed.

Lemma tier_indicators (q : Q) :
  (0 <= q)%Q -> ~ (q == LOW_TIER_MAX_PPM)%Q ->
  (if Qlt_bool TOP_TIER_MIN_PPM q then 1 else 0)
  + (if Qle_bool MID_TIER_MIN_PPM q && Qle_bool q MID_TIER_MAX_PPM then 1 else 0)
  + (if Qle_bool 0 q && Qle_bool q LOW_TIER_MAX_PPM then 1 else 0) = 1.
Proof.
  unfold Qlt_bool, TOP_TIER_MIN_PPM, MID_TIER_MIN_PPM, MID_TIER_MAX_PPM, LOW_TIER_MAX_PPM.
  intros H0 Hne.
  destruct (Qle_bool q (19 # 10)) eqn:E1;
    destruct (Qle_bool (12 # 10) q) eqn:E2;
    destruct (Qle_bool 0 q) eqn:E3;
    destruct (Qle_bool q (12 # 10)) eqn:E4; simpl; try reflexivity; exfalso;
    repeat match goal with
           | H : Qle_bool _ _ = true |- _ => apply Qle_bool_iff in H
           | H : Qle_bool _ _ = false |- _ => apply Qle_bool_false in H
           end;
    lra.
Qed.

Lemma opp_tier_window_sub prev mdate df window m :
  SeasonCalculator.opp_tier_window prev mdate df = Returned window ->
  In m window -> In m df.
Proof.
  destruct prev; simpl; intros H Hin; try discriminate;
    injection H as <-; apply filter_In in Hin; tauto.
Qed.

(** X12.  For a team other than Real Madrid the three tiers do partition
    the window away from the 1.2 boundary: when every row of the window
    has two different sides and a rival PPM that is a number, not
    negative and not exactly 1.2, the TOP, MID and LOW frames together
    hold as many rows as the window. *)
Theorem other_team_tiers_partition_off_boundary
    (rm_matches : DataFrame) (seasons : list Season) (all_matches : DataFrame)
    (team_id mdate : Z) (window : DataFrame) :
  team_id <> 1 ->
  filter (plays team_id) all_matches <> [] ->
  SeasonCalculator.opp_tier_window
    (SeasonManager.get_previous_season seasons (SeasonManager.get_season seasons mdate))
    mdate (filter (plays team_id) all_matches) = Returned window ->
  (forall m, In m window -> off_boundary_row team_id m) ->
  exists top mid low,
    SeasonCalculator.tier_matches rm_matches seasons all_matches team_id mdate
      TOP_TIER_MIN_PPM None = Returned (Some top)
    /\ SeasonCalculator.tier_matches rm_matches seasons all_matches team_id mdate
         MID_TIER_MIN_PPM (Some MID_TIER_MAX_PPM) = Returned (Some mid)
    /\ SeasonCalculator.tier_matches rm_matches seasons all_matches team_id mdate
         0%Q (Some LOW_TIER_MAX_PPM) = Returned (Some low)
    /\ len top + len mid + len low = len window.
Proof.
  intros Ht Hknown Hwin Hrows.
  unfold SeasonCalculator.tier_matches.
  apply Z.eqb_neq in Ht. rewrite Ht. cbn [negb].
  destruct (get_all_opp_matches_eq all_matches team_id) as [E|E].
  { exfalso. apply Hknown. unfold SeasonCalculator.get_all_opp_matches in E.
    destruct (filter (plays team_id) all_matches); [reflexivity | discriminate]. }
  rewrite E, Hwin. cbn [bind].
  do 3 eexists. repeat (split; [reflexivity|]).
  rewrite !len_filter_Zsum, !Zsum_add, <- Zsum_ones.
  apply Zsum_ext_in. intros m Hm.
  destruct (Hrows m Hm) as (Hsides & q & Hq & H0 & Hne).
  assert (Hplays : plays team_id m = true).
  { pose proof (opp_tier_window_sub _ _ _ _ _ Hwin Hm) as Hin.
    apply filter_In in Hin. tauto. }
  pose proof (tier_indicators q H0 Hne) as Hind.
  unfold SeasonCalculator.opp_tier_row, rival_ppm_cell, plays in *.
  destruct (Z.eqb_spec (home_team_id m) team_id) as [Hh|Hh];
    destruct (Z.eqb_spec (away_team_id m) team_id) as [Ha|Ha];
    try congruence; try discriminate; rewrite Hq;
    cbn [ppm_gt ppm_ge ppm_le andb orb]; rewrite ?orb_false_r; exact Hind.
Qed.

Lemma other_team_tiers_partition_off_boundary_witness :
  exists top mid low,
    SeasonCalculator.tier_matches [] SeasonManager_seasons [ex_vs_ppm_1_9] 2 (ymd 2021 1 10)
      TOP_TIER_MIN_PPM None = Returned (Some top)
    /\ SeasonCalculator.tier_matches [] SeasonManager_seasons [ex_vs_ppm_1_9] 2 (ymd 2021 1 10)
         MID_TIER_MIN_PPM (Some MID_TIER_MAX_PPM) = Returned (Some mid)
    /\ SeasonCalculator.tier_matches [] SeasonManager_seasons [ex_vs_ppm_1_9] 2 (ymd 2021 1 10)
         0%Q (Some LOW_TIER_MAX_PPM) = Returned (Some low)
    /\ len top + len mid + len low = len [ex_vs_ppm_1_9].
Proof.
  apply (other_team_tiers_partition_off_boundary
           [] SeasonManager_seasons [ex_vs_ppm_1_9] 2 (ymd 2021 1 10) [ex_vs_ppm_1_9]).
  - discriminate.
  - discriminate.
  - reflexivity.
  - intros m [<-|[]]. split; [discriminate|].
    exists (19 # 10). repeat split; discriminate.
Defined.

(** * Season totals of an opponent *)

Lemma known_team_matches all_matches team_id :
  filter (plays team_id) all_matches <> [] ->
  SeasonCalculator.get_all_opp_matches all_matches team_id
  = Some (filter (plays team_id) all_matches).
Proof.
  intros H. destruct (get_all_opp_matches_eq all_matches team_id) as [E|E]; [|exact E].
  exfalso. apply H. unfold SeasonCalculator.get_all_opp_matches in E.
  destruct (filter (plays team_id) all_matches); [reflexivity | discriminate].
Qed.

(** The two totals as sums over the window. *)
Lemma goal_totals_window_sums
    (seasons : list Season) (all_matches : DataFrame) (opponent_id mdate : Z)
    (prev : Season) :
  let w := SeasonCalculator.season_window (start_date prev) mdate
             (filter (plays opponent_id) all_matches) in
  SeasonManager.get_previous_season seasons (SeasonManager.get_season seasons mdate)
  = PrevDict prev ->
  filter (plays opponent_id) all_matches <> [] ->
  ExtendedStats.calculate_OP_G_SCO_ALL seasons all_matches opponent_id mdate
  = PyInt (Zsum (goals_for opponent_id) w)
  /\ ExtendedStats.calculate_OP_G_CON_ALL seasons all_matches opponent_id mdate
     = PyInt (Zsum (goals_against opponent_id) w).
Proof.
  intros w Hprev Hknown.
  unfold ExtendedStats.calculate_OP_G_SCO_ALL, ExtendedStats.calculate_OP_G_CON_ALL,
    ExtendedStats.season_total, ExtendedStats.goals_scored_in,
    ExtendedStats.goals_conceded_in.
  rewrite Hprev, (known_team_matches _ _ Hknown). fold w.
  rewrite scored_as_sum, conceded_as_sum.
  destruct (len w =? 0) eqn:Hz; [|split; reflexivity].
  apply Z.eqb_eq, len_nil_iff in Hz. rewrite Hz. split; reflexivity.
Qed.

(** X13.  For a team with rows in the all-matches table and a date that
    has a previous season, the season totals are the goals scored and the
    goals conceded by the team, summed over its matches dated from the
    start of the previous season (included) to the date (excluded); an
    empty window gives 0. *)
Theorem goal_totals_are_window_sums
    (seasons : list Season) (all_matches : DataFrame) (opponent_id mdate : Z)
    (prev : Season) :
  let w := SeasonCalculator.season_window (start_date prev) mdate
             (filter (plays opponent_id) all_matches) in
  SeasonManager.get_previous_season seasons (SeasonManager.get_season seasons mdate)
  = PrevDict prev ->
  filter (plays opponent_id) all_matches <> [] ->
  ExtendedStats.calculate_OP_G_SCO_ALL seasons all_matches opponent_id mdate
  = PyInt (Zsum (goals_for opponent_id) w)
  /\ ExtendedStats.calculate_OP_G_CON_ALL seasons all_matches opponent_id mdate
     = PyInt (Zsum (goals_against opponent_id) w).
Proof.
  intros w. apply goal_totals_window_sums.
Qed.

Lemma goal_totals_are_window_sums_witness :
  ExtendedStats.calculate_OP_G_SCO_ALL SeasonManager_seasons ex_form_table 2 (ymd 2021 9 1)
  = PyInt 3
  /\ ExtendedStats.calculate_OP_G_CON_ALL SeasonManager_seasons ex_form_table 2 (ymd 2021 9 1)
     = PyInt 4.
Proof.
  apply (goal_totals_are_window_sums SeasonManager_seasons ex_form_table 2 (ymd 2021 9 1)
           (mkSeason "2020-2021" (ymd 2020 9 12) (ymd 2021 5 23))).
  - reflexivity.
  - discriminate.
Defined.

(** X14.  Edge cases of the season totals and of their ratio.  In the
    earliest season all three are the integer 0, whether the team has rows
    or not; for a date that no season holds, and for a team without rows
    outside the earliest season, all three are [np.nan]. *)
Theorem goal_totals_edge_cases
    (seasons : list Season) (all_matches : DataFrame) (opponent_id mdate : Z) :
  let prev := SeasonManager.get_previous_season seasons
                (SeasonManager.get_season seasons mdate) in
  let sco := ExtendedStats.calculate_OP_G_SCO_ALL seasons all_matches opponent_id mdate in
  let con := ExtendedStats.calculate_OP_G_CON_ALL seasons all_matches opponent_id mdate in
  let rat := ExtendedStats.calculate_OP_G_SCO_G_CON_RAT
               seasons all_matches opponent_id mdate in
  (prev = PrevTrue -> sco = PyInt 0 /\ con = PyInt 0 /\ rat = PyInt 0)
  /\ (SeasonQueries.is_valid_season_date seasons mdate = false ->
      sco = PyNaN /\ con = PyNaN /\ rat = PyNaN)
  /\ (prev <> PrevTrue -> filter (plays opponent_id) all_matches = [] ->
      sco = PyNaN /\ con = PyNaN /\ rat = PyNaN).
Proof.
  intros prev sco con rat. subst sco con rat.
  unfold ExtendedStats.calculate_OP_G_SCO_G_CON_RAT,
    ExtendedStats.calculate_OP_G_SCO_ALL, ExtendedStats.calculate_OP_G_CON_ALL,
    ExtendedStats.season_total.
  fold prev. split; [|split].
  - intros ->. repeat split; reflexivity.
  - intros H. apply previous_season_none_invalid in H. fold prev in H.
    rewrite H. destruct (SeasonCalculator.get_all_opp_matches _ _); repeat split; reflexivity.
  - intros Hp Hf. unfold SeasonCalculator.get_all_opp_matches. rewrite Hf.
    destruct prev; [| contradiction |]; repeat split; reflexivity.
Qed.

Lemma goal_totals_edge_cases_witness :
  ExtendedStats.calculate_OP_G_SCO_G_CON_RAT SeasonManager_seasons [] 99 (ymd 2019 9 1)
  = PyInt 0.
Proof.
  destruct (goal_totals_edge_cases SeasonManager_seasons [] 99 (ymd 2019 9 1))
    as (H & _ & _).
  apply H. reflexivity.
Defined.

(** X15.  The ratio never divides by zero.  For a team with rows and a
    date that has a previous season, with [s] goals scored and [c] goals
    conceded over the window: when [c] is 0 the ratio is the integer
    [max(s, 0)], and otherwise it is the quotient of [s] by [c]. *)
Theorem goal_ratio_cases
    (seasons : list Season) (all_matches : DataFrame) (opponent_id mdate : Z)
    (prev : Season) :
  let w := SeasonCalculator.season_window (start_date prev) mdate
             (filter (plays opponent_id) all_matches) in
  let s := Zsum (goals_for opponent_id) w in
  let c := Zsum (goals_against opponent_id) w in
  let rat := ExtendedStats.calculate_OP_G_SCO_G_CON_RAT
               seasons all_matches opponent_id mdate in
  SeasonManager.get_previous_season seasons (SeasonManager.get_season seasons mdate)
  = PrevDict prev ->
  filter (plays opponent_id) all_matches <> [] ->
  (c = 0 -> rat = PyInt (Z.max s 0))
  /\ (c <> 0 -> rat = PyFloat (inject_Z s / inject_Z c)).
Proof.
  intros w s c rat Hprev Hknown. subst rat.
  unfold ExtendedStats.calculate_OP_G_SCO_G_CON_RAT.
  destruct (goal_totals_window_sums seasons all_matches opponent_id mdate prev
              Hprev Hknown) as [-> ->].
  fold w. fold s. fold c. cbn [ExtendedStats.is_zero ExtendedStats.is_positive
                                 ExtendedStats.divide].
  split.
  - intros ->. cbn [Z.eqb]. destruct (Z.ltb_spec 0 s); f_equal; lia.
  - intros Hc. apply Z.eqb_neq in Hc. rewrite Hc. reflexivity.
Qed.

Lemma goal_ratio_cases_witness :
  ExtendedStats.calculate_OP_G_SCO_G_CON_RAT
    SeasonManager_seasons ex_form_table 2 (ymd 2021 9 1) = PyFloat (3 # 4).
Proof.
  destruct (goal_ratio_cases SeasonManager_seasons ex_form_table 2 (ymd 2021 9 1)
              (mkSeason "2020-2021" (ymd 2020 9 12) (ymd 2021 5 23)))
    as (_ & H).
  - reflexivity.
  - discriminate.
  - apply H. discriminate.
Defined.

(** X16.  The season totals and their ratio do not look ahead: on two
    versions of the all-matches table that hold the same rows dated
    before [D], and in which the team has rows in both or in neither, they
    are the same as of every date [d <= D]. *)
Theorem goal_totals_no_look_ahead
    (D d : Z) (all1 all2 : DataFrame) (seasons : list Season) (opponent_id : Z) :
  d <= D ->
  rows_before D all1 = rows_before D all2 ->
  (SeasonCalculator.get_all_opp_matches all1 opponent_id = None <->
   SeasonCalculator.get_all_opp_matches all2 opponent_id = None) ->
  ExtendedStats.calculate_OP_G_SCO_ALL seasons all1 opponent_id d
  = ExtendedStats.calculate_OP_G_SCO_ALL seasons all2 opponent_id d
  /\ ExtendedStats.calculate_OP_G_CON_ALL seasons all1 opponent_id d
     = ExtendedStats.calculate_OP_G_CON_ALL seasons all2 opponent_id d
  /\ ExtendedStats.calculate_OP_G_SCO_G_CON_RAT seasons all1 opponent_id d
     = ExtendedStats.calculate_OP_G_SCO_G_CON_RAT seasons all2 opponent_id d.
Proof.
  intros Hd Hall Hknown.
  assert (Htot : forall total,
             ExtendedStats.season_total total seasons all1 opponent_id d
             = ExtendedStats.season_total total seasons all2 opponent_id d).
  { intros total. unfold ExtendedStats.season_total.
    destruct (SeasonManager.get_previous_season _ _) as [| |prev]; try reflexivity.
    - destruct (SeasonCalculator.get_all_opp_matches all1 opponent_id);
        destruct (SeasonCalculator.get_all_opp_matches all2 opponent_id);
        reflexivity.
    - destruct (SeasonCalculator.get_all_opp_matches all1 opponent_id) as [tm1|] eqn:E1;
        destruct (SeasonCalculator.get_all_opp_matches all2 opponent_id) as [tm2|] eqn:E2.
      + apply get_all_opp_matches_some in E1, E2. subst tm1 tm2.
        now rewrite (season_window_agree D d Hd all1 all2 Hall).
      + destruct Hknown as [_ H]. specialize (H eq_refl). discriminate.
      + destruct Hknown as [H _]. specialize (H eq_refl). discriminate.
      + reflexivity. }
  unfold ExtendedStats.calculate_OP_G_SCO_G_CON_RAT,
    ExtendedStats.calculate_OP_G_SCO_ALL, ExtendedStats.calculate_OP_G_CON_ALL.
  rewrite !Htot. repeat split; reflexivity.
Qed.

Lemma goal_totals_no_look_ahead_witness :
  ExtendedStats.calculate_OP_G_SCO_ALL SeasonManager_seasons ex_form_table 2 (ymd 2021 3 1)
  = ExtendedStats.calculate_OP_G_SCO_ALL
      SeasonManager_seasons ex_form_table_changed 2 (ymd 2021 3 1).
Proof.
  apply (goal_totals_no_look_ahead (ymd 2021 3 1) (ymd 2021 3 1)
           ex_form_table ex_form_table_changed SeasonManager_seasons 2).
  - lia.
  - reflexivity.
  - split; intros H; vm_compute in H; discriminate.
Defined.

(** * Opponent wrappers, continued *)

(** X17.  For an opponent without any row in the all-matches table the
    season wrapper and the six tier wrappers return [np.nan] for every
    date, whether a season holds it or not, and none of them raises. *)
Theorem unknown_opponent_season_wrappers_nan
    (rm_matches : DataFrame) (seasons : list Season) (all_matches : DataFrame)
    (team_id mdate : Z) :
  team_id <> 1 ->
  filter (plays team_id) all_matches = [] ->
  SeasonWrappers.calculate_OP_PPM_SEA rm_matches seasons all_matches team_id mdate
  = Returned PyNaN
  /\ SeasonWrappers.calculate_OP_GPM_1_9_PPR rm_matches seasons all_matches team_id mdate
     = Returned PyNaN
  /\ SeasonWrappers.calculate_OP_PPM_1_9_PPR rm_matches seasons all_matches team_id mdate
     = Returned PyNaN
  /\ SeasonWrappers.calculate_OP_GPM_1_2__1_9_PPM rm_matches seasons all_matches team_id mdate
     = Returned PyNaN
  /\ SeasonWrappers.calculate_OP_PPM_1_2__1_9_PPM rm_matches seasons all_matches team_id mdate
     = Returned PyNaN
  /\ SeasonWrappers.calculate_OP_GPM_0_1_2_PPM rm_matches seasons all_matches team_id mdate
     = Returned PyNaN
  /\ SeasonWrappers.calculate_OP_PPM_0_1_2_PPM rm_matches seasons all_matches team_id mdate
     = Returned PyNaN.
Proof.
  intros Ht Hf. apply Z.eqb_neq in Ht.
  assert (Htier : forall mn mx,
             SeasonCalculator.calculate_team_stats_against_tier
               rm_matches seasons all_matches team_id mdate mn mx
             = Returned (PyBool false, PyBool false)).
  { intros mn mx.
    unfold SeasonCalculator.calculate_team_stats_against_tier, SeasonCalculator.tier_matches,
      SeasonCalculator.get_all_opp_matches.
    rewrite Ht, Hf. reflexivity. }
  unfold SeasonWrappers.calculate_OP_PPM_SEA,
    SeasonWrappers.calculate_OP_GPM_1_9_PPR, SeasonWrappers.calculate_OP_PPM_1_9_PPR,
    SeasonWrappers.calculate_OP_GPM_1_2__1_9_PPM, SeasonWrappers.calculate_OP_PPM_1_2__1_9_PPM,
    SeasonWrappers.calculate_OP_GPM_0_1_2_PPM, SeasonWrappers.calculate_OP_PPM_0_1_2_PPM,
    SeasonCalculator.calculate_team_goals_against_top,
    SeasonCalculator.calculate_team_points_against_top,
    SeasonCalculator.calculate_team_goals_against_mid,
    SeasonCalculator.calculate_team_points_against_mid,
    SeasonCalculator.calculate_team_goals_against_low,
    SeasonCalculator.calculate_team_points_against_low.
  rewrite !Htier.
  unfold SeasonCalculator.calculate_team_points_per_match_season,
    SeasonCalculator.get_all_opp_matches.
  rewrite Ht, Hf. repeat split; reflexivity.
Qed.

Lemma unknown_opponent_season_wrappers_nan_witness :
  SeasonWrappers.calculate_OP_PPM_SEA [] SeasonManager_seasons [] 99 (ymd 2020 8 1)
  = Returned PyNaN.
Proof.
  apply (unknown_opponent_season_wrappers_nan [] SeasonManager_seasons [] 99 (ymd 2020 8 1)).
  - discriminate.
  - reflexivity.
Defined.

(** X18.  Whenever the opponent rolling form of the last 5 matches
    returns a dict, each of the five wrappers returns the float stored
    under its own key, [calculate_OP_OPP_POS_L5] the one stored under
    ['OP_OPP_PPM_L5']; none of them raises [KeyError]. *)
Theorem opponent_wrappers_return_entries
    (opp_matches : DataFrame) (mdate team_id : Z) (entries : list (string * pyval)) :
  StatsCalculator._calculate_opponent_last_5 opp_matches mdate team_id 5 = PyDict entries ->
  exists sco con dif ppm rivals,
    entries = [ ("OP_G_SCO_L5", PyFloat sco); ("OP_G_CON_L5", PyFloat con);
                ("OP_GDIF_L5", PyFloat dif); ("OP_PPM_L5", PyFloat ppm);
                ("OP_OPP_PPM_L5", PyFloat rivals) ]%string
    /\ StatsFunctions.calculate_OP_G_SCO_L5 opp_matches mdate team_id
       = Returned (PyFloat sco)
    /\ StatsFunctions.calculate_OP_G_CON_L5 opp_matches mdate team_id
       = Returned (PyFloat con)
    /\ StatsFunctions.calculate_OP_GDIF_L5 opp_matches mdate team_id
       = Returned (PyFloat dif)
    /\ StatsFunctions.calculate_OP_PPM_L5 opp_matches mdate team_id
       = Returned (PyFloat ppm)
    /\ StatsFunctions.calculate_OP_OPP_POS_L5 opp_matches mdate team_id
       = Returned (PyFloat rivals).
Proof.
  unfold StatsFunctions.calculate_OP_G_SCO_L5, StatsFunctions.calculate_OP_G_CON_L5,
    StatsFunctions.calculate_OP_GDIF_L5, StatsFunctions.calculate_OP_PPM_L5,
    StatsFunctions.calculate_OP_OPP_POS_L5, StatsFunctions.last_5_field.
  unfold StatsCalculator._calculate_opponent_last_5.
  set (w := head 5 _).
  destruct (len w =? 0); [discriminate|].
  destruct (negb (check_NaN_column_in_RM_matches w)); [discriminate|].
  intros H. injection H as <-.
  do 5 eexists. repeat split; reflexivity.
Qed.

Lemma opponent_wrappers_return_entries_witness :
  StatsFunctions.calculate_OP_G_SCO_L5 ex_form_table (ymd 2021 3 1) 2
  = Returned (PyFloat (3 # 2))
  /\ StatsFunctions.calculate_OP_PPM_L5 ex_form_table (ymd 2021 3 1) 2
     = Returned (PyFloat (4 # 2)).
Proof.
  destruct (opponent_wrappers_return_entries ex_form_table (ymd 2021 3 1) 2 _ eq_refl)
    as (sco & con & dif & ppm & rivals & He & H1 & _ & _ & H4 & _).
  injection He as <- _ _ <- _. split; [exact H1 | exact H4].
Defined.

(** * Coaches *)

Section Coaches.

Import CoachManager.

Lemma first_of_filter_in {B : Type} (f : Coach -> B) (p : Coach -> bool)
    (coach_data : list Coach) (b : B) :
  first_of f (filter p coach_data) = Some b ->
  exists c, In c coach_data /\ p c = true /\ f c = b
            /\ exists rest, filter p coach_data = c :: rest.
Proof.
  unfold first_of. destruct (filter p coach_data) as [|c rest] eqn:E; [discriminate|].
  intros H. injection H as <-. exists c.
  assert (Hin : In c (filter p coach_data)) by (rewrite E; now left).
  apply filter_In in Hin. destruct Hin as [Hin Hp]. repeat split; eauto.
Qed.

Lemma filter_absent_id (coach_data : list Coach) (id : Z) :
  ~ In id (map coach_id coach_data) ->
  filter (fun x => coach_id x =? id) coach_data = [].
Proof.
  induction coach_data as [|x l IH]; simpl; intros H; [reflexivity|].
  destruct (Z.eqb_spec (coach_id x) id) as [E|E].
  - exfalso. apply H. now left.
  - apply IH. intros Hin. apply H. now right.
Qed.

Lemma filter_unique_id (coach_data : list Coach) (c : Coach) :
  NoDup (map coach_id coach_data) -> In c coach_data ->
  filter (fun x => coach_id x =? coach_id c) coach_data = [c].
Proof.
  induction coach_data as [|x l IH]; intros Hnd Hin; [contradiction|].
  simpl in Hnd. inversion Hnd as [|? ? Hx Hnd']; subst. simpl.
  destruct Hin as [->|Hin].
  - rewrite Z.eqb_refl. f_equal. now apply filter_absent_id.
  - destruct (Z.eqb_spec (coach_id x) (coach_id c)) as [E|E].
    + exfalso. apply Hx. rewrite E. now apply in_map.
    + now apply IH.
Qed.

End Coaches.

(** X19.  An id returned by [get_coach_id_by_date] belongs to a coach of
    the table whose period holds the date; [validate_coach_exists] accepts
    it and [get_coach_name_by_id] finds a name for it.  When no coach's
    period holds the date the result is [None]. *)
Theorem coach_by_date_is_known (coach_data : list CoachManager.Coach) (d : Z) :
  (forall id,
     CoachManager.get_coach_id_by_date coach_data d = Some id ->
     (exists c, In c coach_data /\ CoachManager.coach_id c = id
                /\ CoachManager.start_date c <= d <= CoachManager.end_date c)
     /\ CoachManager.validate_coach_exists coach_data id = true
     /\ CoachManager.get_coach_name_by_id coach_data id <> None)
  /\ (CoachManager.get_coach_id_by_date coach_data d = None <->
      forall c, In c coach_data ->
                ~ (CoachManager.start_date c <= d <= CoachManager.end_date c)).
Proof.
  split.
  - intros id H. unfold CoachManager.get_coach_id_by_date in H.
    apply first_of_filter_in in H. destruct H as (c & Hin & Hp & Hid & _).
    apply andb_prop in Hp. destruct Hp as [H1 H2].
    apply Z.leb_le in H1. apply Z.leb_le in H2.
    assert (Hf : In c (filter (fun x => CoachManager.coach_id x =? id) coach_data)).
    { apply filter_In. split; [exact Hin|]. apply Z.eqb_eq. exact Hid. }
    split; [exists c; auto|].
    unfold CoachManager.validate_coach_exists, CoachManager.get_coach_name_by_id,
      CoachManager.first_of.
    destruct (filter _ coach_data); [contradiction|]. split; [reflexivity | discriminate].
  - unfold CoachManager.get_coach_id_by_date, CoachManager.first_of.
    destruct (filter _ coach_data) as [|c rest] eqn:E.
    + split; [intros _|reflexivity]. intros c Hin [H1 H2].
      assert (Hf : In c (filter (fun c => (CoachManager.start_date c <=? d)
                                          && (d <=? CoachManager.end_date c)) coach_data)).
      { apply filter_In. split; [exact Hin|].
        apply andb_true_intro. split; now apply Z.leb_le. }
      rewrite E in Hf. contradiction.
    + split; [discriminate|]. intros H. exfalso.
      assert (Hf : In c (filter (fun c => (CoachManager.start_date c <=? d)
                                          && (d <=? CoachManager.end_date c)) coach_data))
        by (rewrite E; now left).
      apply filter_In in Hf. destruct Hf as [Hin Hp].
      apply andb_prop in Hp. destruct Hp as [H1 H2].
      apply Z.leb_le in H1. apply Z.leb_le in H2. apply (H c Hin). lia.
Qed.

Lemma coach_by_date_is_known_witness :
  CoachManager.validate_coach_exists ex_coaches 1 = true.
Proof.
  destruct (coach_by_date_is_known ex_coaches (ymd 2021 1 10)) as (H & _).
  destruct (H 1 eq_refl) as (_ & Hv & _). exact Hv.
Defined.

(** X20.  With distinct coach ids, looking a coach up by name and then by
    the id found gives the name back. *)
Theorem coach_name_id_round_trip
    (coach_data : list CoachManager.Coach) (nm : string) (id : Z) :
  NoDup (map CoachManager.coach_id coach_data) ->
  CoachManager.get_coach_id_by_name coach_data nm = Some id ->
  CoachManager.get_coach_name_by_id coach_data id = Some nm.
Proof.
  intros Hnd H. unfold CoachManager.get_coach_id_by_name in H.
  apply first_of_filter_in in H. destruct H as (c & Hin & Hp & Hid & _).
  apply String.eqb_eq in Hp. subst id nm.
  unfold CoachManager.get_coach_name_by_id.
  now rewrite (filter_unique_id coach_data c Hnd Hin).
Qed.

Lemma coach_name_id_round_trip_witness :
  CoachManager.get_coach_name_by_id ex_coaches 2 = Some "Ancelotti"%string.
Proof.
  apply (coach_name_id_round_trip ex_coaches "Ancelotti" 2).
  - simpl. repeat constructor; simpl; intuition discriminate.
  - reflexivity.
Defined.

(** * Coach rating of the previous season *)

(** X21.  For every date of the earliest season of the manager, whose
    range is [SEASON_DATES[0]], the coach rating "of the previous season"
    is the mean of the ratings over all matches dated inside that range: it
    is the same for every date of the season, and matches played on or
    after the date are part of it. *)
Theorem coach_rating_first_season_ignores_date
    (rm_matches : list CoachRatings.RatedMatch) (rest : list Season) (d1 d2 : Z) :
  let seasons := season_2019_2020 :: rest in
  holds_date d1 season_2019_2020 -> holds_date d2 season_2019_2020 ->
  CoachRatings.calculate_coach_rating_last_season rm_matches seasons d1
  = CoachRatings.calculate_coach_rating_last_season rm_matches seasons d2
  /\ CoachRatings.calculate_coach_rating_last_season rm_matches seasons d1
     = CoachRatings.mean_rating
         (filter (fun r => date_ge (CoachRatings.rated_date r) (ymd 2019 8 16)
                           && negb (date_gt (CoachRatings.rated_date r) (ymd 2020 7 19)))
                 rm_matches).
Proof.
  intros seasons H1 H2. subst seasons.
  unfold CoachRatings.calculate_coach_rating_last_season.
  rewrite (first_season_previous_is_sentinel season_2019_2020 rest d1 H1),
          (first_season_previous_is_sentinel season_2019_2020 rest d2 H2).
  split; reflexivity.
Qed.

Lemma coach_rating_first_season_ignores_date_witness :
  CoachRatings.calculate_coach_rating_last_season
    ex_rated SeasonManager_seasons (ymd 2019 9 1)
  = CoachRatings.calculate_coach_rating_last_season
      ex_rated SeasonManager_seasons (ymd 2020 6 1)
  /\ CoachRatings.calculate_coach_rating_last_season
       ex_rated SeasonManager_seasons (ymd 2019 9 1) = PyFloat (13 # 2).
Proof.
  destruct (coach_rating_first_season_ignores_date
              ex_rated (tl SeasonManager_seasons) (ymd 2019 9 1) (ymd 2020 6 1))
    as [H1 H2].
  - unfold holds_date. vm_compute. split; discriminate.
  - unfold holds_date. vm_compute. split; discriminate.
  - split; [exact H1|]. etransitivity; [exact H2 | reflexivity].
Defined.

(** X22.  Outside the earliest season the coach rating of the previous
    season does not look ahead: with seasons in chronological order under
    distinct names, two versions of the Real Madrid table that hold the
    same rows dated before the date give the same rating. *)
Theorem coach_rating_last_season_no_look_ahead
    (rm1 rm2 : list CoachRatings.RatedMatch) (seasons : list Season) (d : Z) :
  chronological seasons ->
  NoDup (map name seasons) ->
  SeasonManager.get_previous_season seasons (SeasonManager.get_season seasons d)
  <> PrevTrue ->
  filter (fun r => date_lt (CoachRatings.rated_date r) d) rm1
  = filter (fun r => date_lt (CoachRatings.rated_date r) d) rm2 ->
  CoachRatings.calculate_coach_rating_last_season rm1 seasons d
  = CoachRatings.calculate_coach_rating_last_season rm2 seasons d.
Proof.
  intros Hchrono Hnd Hnot Hagree.
  unfold CoachRatings.calculate_coach_rating_last_season.
  destruct (SeasonManager.get_previous_season seasons (SeasonManager.get_season seasons d))
    as [| |prev] eqn:Eprev; [reflexivity | contradiction |].
  destruct (previous_season_before seasons d prev Hchrono Hnd Eprev) as [_ Hend].
  f_equal.
  rewrite (filter_through _ (fun r => date_lt (CoachRatings.rated_date r) d) rm1),
          (filter_through _ (fun r => date_lt (CoachRatings.rated_date r) d) rm2).
  - now rewrite Hagree.
  - intros r H. apply andb_prop in H. destruct H as [_ H].
    destruct (CoachRatings.rated_date r) as [v|]; simpl in *; [|discriminate].
    apply Z.ltb_lt in H. apply Z.ltb_lt. lia.
  - intros r H. apply andb_prop in H. destruct H as [_ H].
    destruct (CoachRatings.rated_date r) as [v|]; simpl in *; [|discriminate].
    apply Z.ltb_lt in H. apply Z.ltb_lt. lia.
Qed.

Lemma coach_rating_last_season_no_look_ahead_witness :
  CoachRatings.calculate_coach_rating_last_season
    ex_rated SeasonManager_seasons (ymd 2021 1 10)
  = CoachRatings.calculate_coach_rating_last_season
      ex_rated_changed SeasonManager_seasons (ymd 2021 1 10).
Proof.
  apply coach_rating_last_season_no_look_ahead.
  - exact SeasonManager_seasons_chronological.
  - simpl. repeat constructor; simpl; intuition discriminate.
  - vm_compute. discriminate.
  - reflexivity.
Defined.
